(** * Lenovo Yoga Slim 7x embedded-controller driver

    A shallow embedding of [drivers/platform/arm64/lenovo-yoga-slim7x.c].

    The driver is a sequence of calls into kernel services (SMBus
    transfers, the input core, the interrupt core, the device log and a
    mutex).  The embedding keeps that shape: every driver entry point is a
    computation in a small state monad over a [kernel], which records each
    service call in the order it is made and decides, from the history so
    far, what a value-returning service answers.  C [int]s and pointers are
    [Z]; no arithmetic is done on them, only sign and zero tests. *)

From Stdlib Require Import ZArith List String Bool Lia.
Import ListNotations.
Local Open Scope string_scope.
Local Open Scope Z_scope.
Local Open Scope list_scope.

(** ** Register map and notification values (lines 19-58 of the source) *)

Definition EC_IRQ_REASON_REG : Z := 0x05.
Definition EC_SUSPEND_RESUME_REG : Z := 0x23.
Definition EC_IRQ_ENABLE_REG : Z := 0x35.
Definition EC_BACKLIGHT_STATUS_REG : Z := 0x83.
Definition EC_MIC_MUTE_LED_REG : Z := 0x84.
Definition EC_AC_STATUS_REG : Z := 0x90.

Definition EC_NOTIFY_SUSPEND_ENTER : Z := 0x01.
Definition EC_NOTIFY_SUSPEND_EXIT : Z := 0x00.
Definition EC_NOTIFY_SCREEN_OFF : Z := 0x03.
Definition EC_NOTIFY_SCREEN_ON : Z := 0x04.

Definition EC_IRQ_MICMUTE_BUTTON : Z := 0x04.
Definition EC_IRQ_FAN1_STATUS_CHANGE : Z := 0x30.
Definition EC_IRQ_FAN2_STATUS_CHANGE : Z := 0x31.
Definition EC_IRQ_FAN1_SPEED_CHANGE : Z := 0x32.
Definition EC_IRQ_FAN2_SPEED_CHANGE : Z := 0x33.
Definition EC_IRQ_COMPLETED_LUT_UPDATE : Z := 0x34.
Definition EC_IRQ_COMPLETED_FAN_PROFILE_SWITCH : Z := 0x35.
Definition EC_IRQ_THERMISTOR_1_TEMP_THRESHOLD_CROSS : Z := 0x36.
Definition EC_IRQ_THERMISTOR_2_TEMP_THRESHOLD_CROSS : Z := 0x37.
Definition EC_IRQ_THERMISTOR_3_TEMP_THRESHOLD_CROSS : Z := 0x38.
Definition EC_IRQ_THERMISTOR_4_TEMP_THRESHOLD_CROSS : Z := 0x39.
Definition EC_IRQ_THERMISTOR_5_TEMP_THRESHOLD_CROSS : Z := 0x3a.
Definition EC_IRQ_THERMISTOR_6_TEMP_THRESHOLD_CROSS : Z := 0x3b.
Definition EC_IRQ_THERMISTOR_7_TEMP_THRESHOLD_CROSS : Z := 0x3c.
Definition EC_IRQ_RECOVERED_FROM_RESET : Z := 0x3d.
Definition EC_IRQ_LENOVO_SUPPORT_KEY : Z := 0x90.
Definition EC_IRQ_FN_Q : Z := 0x91.
Definition EC_IRQ_FN_M : Z := 0x92.
Definition EC_IRQ_FN_SPACE : Z := 0x93.
Definition EC_IRQ_FN_R : Z := 0x94.
Definition EC_IRQ_FNLOCK_ON : Z := 0x95.
Definition EC_IRQ_FNLOCK_OFF : Z := 0x96.
Definition EC_IRQ_FN_N : Z := 0x97.
Definition EC_IRQ_AI : Z := 0x9a.
Definition EC_IRQ_NPU : Z := 0x9b.

(** The reason codes the source names but gives no action to. *)
Definition unmapped_reason_codes : list Z :=
  [ EC_IRQ_FAN1_STATUS_CHANGE; EC_IRQ_FAN2_STATUS_CHANGE;
    EC_IRQ_FAN1_SPEED_CHANGE; EC_IRQ_FAN2_SPEED_CHANGE;
    EC_IRQ_COMPLETED_LUT_UPDATE; EC_IRQ_COMPLETED_FAN_PROFILE_SWITCH;
    EC_IRQ_THERMISTOR_1_TEMP_THRESHOLD_CROSS;
    EC_IRQ_THERMISTOR_2_TEMP_THRESHOLD_CROSS;
    EC_IRQ_THERMISTOR_3_TEMP_THRESHOLD_CROSS;
    EC_IRQ_THERMISTOR_4_TEMP_THRESHOLD_CROSS;
    EC_IRQ_THERMISTOR_5_TEMP_THRESHOLD_CROSS;
    EC_IRQ_THERMISTOR_6_TEMP_THRESHOLD_CROSS;
    EC_IRQ_THERMISTOR_7_TEMP_THRESHOLD_CROSS;
    EC_IRQ_RECOVERED_FROM_RESET; EC_IRQ_LENOVO_SUPPORT_KEY;
    EC_IRQ_FN_Q; EC_IRQ_FN_M; EC_IRQ_FN_SPACE; EC_IRQ_FN_R;
    EC_IRQ_FNLOCK_ON; EC_IRQ_FNLOCK_OFF; EC_IRQ_FN_N;
    EC_IRQ_AI; EC_IRQ_NPU ].

(** ** Constants of the kernel headers the driver includes

    These come from [linux/input-event-codes.h], [linux/interrupt.h],
    [linux/errno.h] and [linux/irqreturn.h]; no statement below depends on
    their numeric values. *)

Definition EV_KEY : Z := 0x01.
Definition KEY_MICMUTE : Z := 248.
Definition IRQF_ONESHOT : Z := 0x2000.
Definition ENOMEM : Z := 12.

Inductive irqreturn_t : Type :=
| IRQ_NONE
| IRQ_HANDLED
| IRQ_WAKE_THREAD.

(** ** Kernel objects the driver handles *)

(** [struct i2c_client]: the fields the driver reads.  [struct device] is
    embedded in the client, so a pointer to one determines the other:
    [&client->dev] and [to_i2c_client(dev)] are mutually inverse pointer
    adjustments, modelled as the identity. *)
Record i2c_client : Type := mk_i2c_client {
  addr : Z;
  client_irq : Z
}.

Definition device : Type := i2c_client.
Definition client_dev (client : i2c_client) : device := client.
Definition to_i2c_client (dev : device) : i2c_client := dev.

(** [struct yoga_slim7x_ec] (lines 60-64).  [idev] is the pointer returned
    by the input core; the embedded [struct mutex] is identified by the
    address of the allocation that holds it. *)
Record yoga_slim7x_ec : Type := mk_yoga_slim7x_ec {
  client : i2c_client;
  idev : Z;
  lock : Z
}.

(** ** The kernel as seen from the driver *)

Module Kernel.

(** Services that hand a value back to the driver, with the arguments
    that vary.  Left out because the driver always passes the same ones:
    the size and GFP flags of the allocation, and the handlers of the
    interrupt request (no primary handler, [yoga_slim7x_ec_irq] as the
    threaded one). *)
Inductive call : Type :=
| I2cSmbusReadByteData (client : i2c_client) (command : Z)
| I2cSmbusWriteByteData (client : i2c_client) (command value : Z)
| DevmKzalloc (dev : device)
| DevmInputAllocateDevice (dev : device)
| InputRegisterDevice (idev : Z) (name phys : string)
| DevmRequestThreadedIrq (dev : device) (irq flags : Z)
                         (devname : string) (dev_id : yoga_slim7x_ec).

(** Everything the driver does that is visible outside of it. *)
Inductive event : Type :=
| Returned (c : call) (r : Z)
| MutexInit (l : Z)
| MutexLock (l : Z)
| MutexUnlock (l : Z)
| InputSetCapability (idev type code : Z)
| InputReportKey (idev code value : Z)
| InputSync (idev : Z)
| DevErr (dev : device) (fmt : string) (arg : Z)
| DevInfo (dev : device) (fmt : string) (arg : Z)
| DevErrProbe (dev : device) (err : Z) (fmt : string).

(** [trace] is the history, oldest event first; [respond] is the
    behaviour of the outside world: the answer to a call, given all that
    has happened before it. *)
Record kernel : Type := mk_kernel {
  trace : list event;
  respond : list event -> call -> Z
}.

Definition kernelM (A : Type) : Type := kernel -> A * kernel.

Definition ret {A : Type} (a : A) : kernelM A := fun k => (a, k).

Definition bind {A B : Type} (m : kernelM A) (f : A -> kernelM B)
  : kernelM B :=
  fun k => let (a, k') := m k in f a k'.

Definition emit (e : event) : kernelM unit :=
  fun k => (tt, {| trace := trace k ++ [e]; respond := respond k |}).

Definition invoke (c : call) : kernelM Z :=
  fun k =>
    let r := respond k (trace k) c in
    (r, {| trace := trace k ++ [Returned c r]; respond := respond k |}).

(** What a computation returns, and what it adds to the history. *)
Definition result {A : Type} (m : kernelM A) (k : kernel) : A :=
  fst (m k).

Definition emitted {A : Type} (m : kernelM A) (k : kernel) : list event :=
  skipn (List.length (trace k)) (trace (snd (m k))).

End Kernel.

Import Kernel.

Declare Scope kernel_scope.
Delimit Scope kernel_scope with kernel.
Notation "x <- c1 ;; c2" := (bind c1 (fun x => c2))
  (at level 61, c1 at next level, right associativity) : kernel_scope.
Notation "c1 ;; c2" := (bind c1 (fun _ => c2))
  (at level 61, right associativity) : kernel_scope.
Local Open Scope kernel_scope.

(** ** Kernel services used by the driver *)

Definition i2c_smbus_read_byte_data (client : i2c_client) (command : Z)
  : kernelM Z :=
  invoke (I2cSmbusReadByteData client command).

Definition i2c_smbus_write_byte_data (client : i2c_client)
  (command value : Z) : kernelM Z :=
  invoke (I2cSmbusWriteByteData client command value).

Definition devm_kzalloc (dev : device) : kernelM Z :=
  invoke (DevmKzalloc dev).

Definition devm_input_allocate_device (dev : device) : kernelM Z :=
  invoke (DevmInputAllocateDevice dev).

Definition input_register_device (idev : Z) (name phys : string)
  : kernelM Z :=
  invoke (InputRegisterDevice idev name phys).

Definition devm_request_threaded_irq (dev : device) (irq flags : Z)
  (devname : string) (dev_id : yoga_slim7x_ec) : kernelM Z :=
  invoke (DevmRequestThreadedIrq dev irq flags devname dev_id).

Definition mutex_init (l : Z) : kernelM unit := emit (MutexInit l).
Definition mutex_lock (l : Z) : kernelM unit := emit (MutexLock l).
Definition mutex_unlock (l : Z) : kernelM unit := emit (MutexUnlock l).

Definition input_set_capability (idev type code : Z) : kernelM unit :=
  emit (InputSetCapability idev type code).

Definition input_report_key (idev code value : Z) : kernelM unit :=
  emit (InputReportKey idev code value).

Definition input_sync (idev : Z) : kernelM unit := emit (InputSync idev).

Definition dev_err (dev : device) (fmt : string) (arg : Z) : kernelM unit :=
  emit (DevErr dev fmt arg).

Definition dev_info (dev : device) (fmt : string) (arg : Z) : kernelM unit :=
  emit (DevInfo dev fmt arg).

(** Modelled from the spec: [dev_err_probe] is a kernel helper that is not
    part of the driver file.  It records the failure and hands the error
    code it was given back to its caller, which is how a bring-up failure
    is "propagated to the caller" (section 7 of the specification). *)
Definition dev_err_probe (dev : device) (err : Z) (fmt : string)
  : kernelM Z :=
  emit (DevErrProbe dev err fmt) ;; ret err.

(** [guard(mutex)(l)]: the lock is taken where the guard is declared and
    released when the enclosing scope is left, on every path. *)
Definition guard_mutex {A : Type} (l : Z) (scope : kernelM A) : kernelM A :=
  mutex_lock l ;;
  r <- scope ;;
  mutex_unlock l ;;
  ret r.

(** ** The driver *)

(** [yoga_slim7x_ec_irq] (lines 66-92). *)
Definition yoga_slim7x_ec_irq (irq : Z) (data : yoga_slim7x_ec)
  : kernelM irqreturn_t :=
  let ec := data in
  let dev := client_dev (client ec) in
  guard_mutex (lock ec) (
    val <- i2c_smbus_read_byte_data (client ec) EC_IRQ_REASON_REG ;;
    if val <? 0 then
      dev_err dev "Failed to get EC IRQ reason: %d\n" val ;;
      ret IRQ_HANDLED
    else
      (if val =? EC_IRQ_MICMUTE_BUTTON then
         input_report_key (idev ec) KEY_MICMUTE 1 ;;
         input_sync (idev ec) ;;
         input_report_key (idev ec) KEY_MICMUTE 0 ;;
         input_sync (idev ec)
       else
         dev_info dev "Unhandled EC IRQ reason: %d\n" val) ;;
      ret IRQ_HANDLED).

(** [yoga_slim7x_ec_probe] (lines 94-129).  The two plain stores to
    [ec->idev->name] and [ec->idev->phys] are carried by the registration
    call that publishes them. *)
Definition yoga_slim7x_ec_probe (client : i2c_client) : kernelM Z :=
  let dev := client_dev client in
  ec <- devm_kzalloc dev ;;
  if ec =? 0 then ret (- ENOMEM) else
  mutex_init ec ;;
  idev <- devm_input_allocate_device dev ;;
  if idev =? 0 then ret (- ENOMEM) else
  let name := "yoga-slim7x-ec" in
  let phys := "yoga-slim7x-ec/input0" in
  input_set_capability idev EV_KEY KEY_MICMUTE ;;
  r <- input_register_device idev name phys ;;
  if r <? 0 then
    dev_err_probe dev r "Failed to register input device\n"
  else
  r <- devm_request_threaded_irq dev (client_irq client) IRQF_ONESHOT
         "yoga_slim7x_ec"
         {| client := client; idev := idev; lock := ec |} ;;
  if r <? 0 then
    dev_err_probe dev r "Unable to request irq\n"
  else
  r <- i2c_smbus_write_byte_data client EC_IRQ_ENABLE_REG 0x01 ;;
  if r <? 0 then
    dev_err_probe dev r "Failed to enable interrupts\n"
  else
  ret 0.

(** [yoga_slim7x_ec_remove] (lines 131-139). *)
Definition yoga_slim7x_ec_remove (client : i2c_client) : kernelM unit :=
  let dev := client_dev client in
  r <- i2c_smbus_write_byte_data client EC_IRQ_ENABLE_REG 0x00 ;;
  if r <? 0 then
    dev_err dev "Failed to disable interrupts: %d\n" r
  else
    ret tt.

(** [yoga_slim7x_ec_suspend] (lines 141-155).  [if (ret)] is a test
    against zero. *)
Definition yoga_slim7x_ec_suspend (dev : device) : kernelM Z :=
  let client := to_i2c_client dev in
  r <- i2c_smbus_write_byte_data client EC_SUSPEND_RESUME_REG
         EC_NOTIFY_SCREEN_OFF ;;
  if negb (r =? 0) then ret r else
  r <- i2c_smbus_write_byte_data client EC_SUSPEND_RESUME_REG
         EC_NOTIFY_SUSPEND_ENTER ;;
  if negb (r =? 0) then ret r else
  ret 0.

(** [yoga_slim7x_ec_resume] (lines 157-171). *)
Definition yoga_slim7x_ec_resume (dev : device) : kernelM Z :=
  let client := to_i2c_client dev in
  r <- i2c_smbus_write_byte_data client EC_SUSPEND_RESUME_REG
         EC_NOTIFY_SUSPEND_EXIT ;;
  if negb (r =? 0) then ret r else
  r <- i2c_smbus_write_byte_data client EC_SUSPEND_RESUME_REG
         EC_NOTIFY_SCREEN_ON ;;
  if negb (r =? 0) then ret r else
  ret 0.

(** ** Views of a history *)

Definition is_input_event (e : event) : bool :=
  match e with
  | InputReportKey _ _ _ | InputSync _ => true
  | _ => false
  end.

Definition is_diagnostic (e : event) : bool :=
  match e with
  | DevErr _ _ _ | DevInfo _ _ _ | DevErrProbe _ _ _ => true
  | _ => false
  end.

Definition is_lock_op (e : event) : bool :=
  match e with
  | MutexLock _ | MutexUnlock _ => true
  | _ => false
  end.

(** What reached the input core, what reached the device log, and which
    lock operations were made, each in order. *)
Definition input_events (evs : list event) : list event :=
  filter is_input_event evs.

Definition diagnostics (evs : list event) : list event :=
  filter is_diagnostic evs.

Definition lock_ops (evs : list event) : list event :=
  filter is_lock_op evs.

(** SMBus reads as (register, value returned), in order. *)
Fixpoint bus_reads (evs : list event) : list (Z * Z) :=
  match evs with
  | [] => []
  | Returned (I2cSmbusReadByteData _ command) r :: evs' =>
      (command, r) :: bus_reads evs'
  | _ :: evs' => bus_reads evs'
  end.

(** SMBus writes as (register, byte written, value returned), in order. *)
Fixpoint bus_writes (evs : list event) : list (Z * Z * Z) :=
  match evs with
  | [] => []
  | Returned (I2cSmbusWriteByteData _ command value) r :: evs' =>
      (command, value, r) :: bus_writes evs'
  | _ :: evs' => bus_writes evs'
  end.

(** [bus_accesses_locked l held evs]: every SMBus transfer in [evs] is
    made while mutex [l] is held, [held] telling whether it is held when
    [evs] starts. *)
Fixpoint bus_accesses_locked (l : Z) (held : bool) (evs : list event)
  : bool :=
  match evs with
  | [] => true
  | MutexLock l' :: evs' =>
      bus_accesses_locked l (held || (l' =? l)) evs'
  | MutexUnlock l' :: evs' =>
      bus_accesses_locked l (held && negb (l' =? l)) evs'
  | Returned (I2cSmbusReadByteData _ _) _ :: evs'
  | Returned (I2cSmbusWriteByteData _ _ _) _ :: evs' =>
      held && bus_accesses_locked l held evs'
  | _ :: evs' => bus_accesses_locked l held evs'
  end.

(** ** Running a computation

    [runs m k a evs]: started in [k], the computation [m] returns [a],
    appends exactly [evs] to the history and leaves the behaviour of the
    outside world as it was. *)

Definition extend (k : kernel) (evs : list event) : kernel :=
  {| trace := trace k ++ evs; respond := respond k |}.

Definition runs {A : Type} (m : kernelM A) (k : kernel) (a : A)
  (evs : list event) : Prop :=
  m k = (a, extend k evs).

(** ** The interrupt handler, run symbolically *)

(** The byte (or negative errno) the reason-register read of this
    invocation returns: the answer of the outside world once the lock has
    been taken. *)
Definition irq_reason (ec : yoga_slim7x_ec) (k : kernel) : Z :=
  respond k (trace k ++ [MutexLock (lock ec)])
    (I2cSmbusReadByteData (client ec) EC_IRQ_REASON_REG).

(** What the handler does between the read and the release of the lock. *)
Definition irq_dispatch (ec : yoga_slim7x_ec) (val : Z) : list event :=
  if val <? 0 then
    [DevErr (client_dev (client ec)) "Failed to get EC IRQ reason: %d\n" val]
  else if val =? EC_IRQ_MICMUTE_BUTTON then
    [InputReportKey (idev ec) KEY_MICMUTE 1; InputSync (idev ec);
     InputReportKey (idev ec) KEY_MICMUTE 0; InputSync (idev ec)]
  else
    [DevInfo (client_dev (client ec)) "Unhandled EC IRQ reason: %d\n" val].

Definition irq_events (ec : yoga_slim7x_ec) (val : Z) : list event :=
  [MutexLock (lock ec);
   Returned (I2cSmbusReadByteData (client ec) EC_IRQ_REASON_REG) val]
  ++ irq_dispatch ec val ++ [MutexUnlock (lock ec)].

(** ** The power sequencer, run symbolically *)

(** A write of [value] to the suspend/resume register, with its outcome. *)
Definition notify (client : i2c_client) (value r : Z) : event :=
  Returned (I2cSmbusWriteByteData client EC_SUSPEND_RESUME_REG value) r.

(** The outcome of the first and of the second write of a transition that
    starts in [k]; the second is the answer of the outside world after a
    first write that returned [0]. *)
Definition first_write (client : i2c_client) (value : Z) (k : kernel) : Z :=
  respond k (trace k)
    (I2cSmbusWriteByteData client EC_SUSPEND_RESUME_REG value).

Definition second_write (client : i2c_client) (value1 value2 : Z)
  (k : kernel) : Z :=
  respond k (trace k ++ [notify client value1 0])
    (I2cSmbusWriteByteData client EC_SUSPEND_RESUME_REG value2).

(** ** Detach, run symbolically *)

Definition disable_result (client : i2c_client) (k : kernel) : Z :=
  respond k (trace k)
    (I2cSmbusWriteByteData client EC_IRQ_ENABLE_REG 0x00).

(** ** Attach, run symbolically *)

(** The service calls of attach, with their outcomes. *)
Definition ev_kzalloc (client : i2c_client) (ec : Z) : event :=
  Returned (DevmKzalloc (client_dev client)) ec.

Definition ev_input_allocate (client : i2c_client) (idev : Z) : event :=
  Returned (DevmInputAllocateDevice (client_dev client)) idev.

Definition ev_input_register (idev r : Z) : event :=
  Returned
    (InputRegisterDevice idev "yoga-slim7x-ec" "yoga-slim7x-ec/input0") r.

Definition ev_request_irq (client : i2c_client) (ec idev r : Z) : event :=
  Returned
    (DevmRequestThreadedIrq (client_dev client) (client_irq client)
       IRQF_ONESHOT
       "yoga_slim7x_ec" (mk_yoga_slim7x_ec client idev ec)) r.

Definition ev_enable_irq (client : i2c_client) (r : Z) : event :=
  Returned (I2cSmbusWriteByteData client EC_IRQ_ENABLE_REG 0x01) r.

(** The ways attach can go: what it returns and what it has done. *)
Inductive probe_outcome (client : i2c_client) : Z -> list event -> Prop :=
| probe_no_memory :
    probe_outcome client (- ENOMEM) [ev_kzalloc client 0]
| probe_no_input_device (ec : Z) :
    ec <> 0 ->
    probe_outcome client (- ENOMEM)
      [ev_kzalloc client ec; MutexInit ec; ev_input_allocate client 0]
| probe_register_failed (ec idev err : Z) :
    ec <> 0 -> idev <> 0 -> err < 0 ->
    probe_outcome client err
      [ev_kzalloc client ec; MutexInit ec; ev_input_allocate client idev;
       InputSetCapability idev EV_KEY KEY_MICMUTE;
       ev_input_register idev err;
       DevErrProbe (client_dev client) err
                   "Failed to register input device\n"]
| probe_request_irq_failed (ec idev r1 err : Z) :
    ec <> 0 -> idev <> 0 -> 0 <= r1 -> err < 0 ->
    probe_outcome client err
      [ev_kzalloc client ec; MutexInit ec; ev_input_allocate client idev;
       InputSetCapability idev EV_KEY KEY_MICMUTE;
       ev_input_register idev r1;
       ev_request_irq client ec idev err;
       DevErrProbe (client_dev client) err "Unable to request irq\n"]
| probe_enable_failed (ec idev r1 r2 err : Z) :
    ec <> 0 -> idev <> 0 -> 0 <= r1 -> 0 <= r2 -> err < 0 ->
    probe_outcome client err
      [ev_kzalloc client ec; MutexInit ec; ev_input_allocate client idev;
       InputSetCapability idev EV_KEY KEY_MICMUTE;
       ev_input_register idev r1;
       ev_request_irq client ec idev r2;
       ev_enable_irq client err;
       DevErrProbe (client_dev client) err "Failed to enable interrupts\n"]
| probe_attached (ec idev r1 r2 r3 : Z) :
    ec <> 0 -> idev <> 0 -> 0 <= r1 -> 0 <= r2 -> 0 <= r3 ->
    probe_outcome client 0
      [ev_kzalloc client ec; MutexInit ec; ev_input_allocate client idev;
       InputSetCapability idev EV_KEY KEY_MICMUTE;
       ev_input_register idev r1;
       ev_request_irq client ec idev r2;
       ev_enable_irq client r3].

(** The input core accepted the device; the interrupt core accepted the
    handler. *)
Definition input_registered (e : event) : bool :=
  match e with
  | Returned (InputRegisterDevice _ _ _) r => 0 <=? r
  | _ => false
  end.

Definition handler_armed (e : event) : bool :=
  match e with
  | Returned (DevmRequestThreadedIrq _ _ _ _ _) r => 0 <=? r
  | _ => false
  end.

(** SMBus writes as (register, byte written), whatever they returned. *)
Definition bus_write_attempts (evs : list event) : list (Z * Z) :=
  map fst (bus_writes evs).

(** ** Concrete inputs *)

(** Kernels used to run the driver on concrete inputs: an empty history
    and an outside world that answers every SMBus read with [rd], every
    SMBus write with [wr] and everything else with [other]. *)
Definition answering (rd wr other : Z) : kernel :=
  {| trace := [];
     respond := fun _ c =>
       match c with
       | I2cSmbusReadByteData _ _ => rd
       | I2cSmbusWriteByteData _ _ _ => wr
       | _ => other
       end |}.

(** Two error numbers of [linux/errno.h], for the runs that fail. *)
Definition EIO : Z := 5.

Definition ec_client : i2c_client := {| addr := 0x76; client_irq := 66 |}.

Definition ec_state : yoga_slim7x_ec :=
  {| client := ec_client; idev := 4096; lock := 8192 |}.

Definition EINVAL : Z := 22.

(** An outside world in which the allocations succeed and the input core
    refuses the device. *)
Definition refusing_input_device : kernel :=
  {| trace := [];
     respond := fun _ c =>
       match c with
       | DevmKzalloc _ => 8192
       | DevmInputAllocateDevice _ => 4096
       | InputRegisterDevice _ _ _ => - EINVAL
       | _ => 0
       end |}.

(** A full attach on an outside world where everything succeeds. *)
Definition accepting : kernel :=
  {| trace := [];
     respond := fun _ c =>
       match c with
       | DevmKzalloc _ => 8192
       | DevmInputAllocateDevice _ => 4096
       | _ => 0
       end |}.

(** ** Locking

    The handler runs in an interrupt thread and the power callbacks run in
    the context of the power-management core; the two may overlap.  A
    schedule lists the events of both in the order in which they happen,
    each tagged with the context that made it. *)

Inductive context : Type :=
| IrqThread
| PmCallback.

Definition context_eqb (a b : context) : bool :=
  match a, b with
  | IrqThread, IrqThread | PmCallback, PmCallback => true
  | _, _ => false
  end.

Definition schedule : Type := list (context * event).

(** The events of one context, in order. *)
Definition run_of (c : context) (s : schedule) : list event :=
  map snd (filter (fun p => context_eqb (fst p) c) s).

(** Mutex [l] is only taken while free and only released by its holder. *)
Fixpoint mutex_respected (l : Z) (holder : option context) (s : schedule)
  : bool :=
  match s with
  | [] => true
  | (c, MutexLock l') :: s' =>
      if l' =? l then
        match holder with
        | None => mutex_respected l (Some c) s'
        | Some _ => false
        end
      else mutex_respected l holder s'
  | (c, MutexUnlock l') :: s' =>
      if l' =? l then
        match holder with
        | Some c' => context_eqb c c' && mutex_respected l None s'
        | None => false
        end
      else mutex_respected l holder s'
  | _ :: s' => mutex_respected l holder s'
  end.

(** Which context made each SMBus transfer, in bus order. *)
Fixpoint bus_traffic (s : schedule) : list context :=
  match s with
  | [] => []
  | (c, Returned (I2cSmbusReadByteData _ _) _) :: s'
  | (c, Returned (I2cSmbusWriteByteData _ _ _) _) :: s' =>
      c :: bus_traffic s'
  | _ :: s' => bus_traffic s'
  end.

(** The answers recorded in a history are those the outside world gives,
    each at the point of the history where its call is made. *)
Fixpoint answers_agree (respond : list event -> call -> Z)
  (history evs : list event) : bool :=
  match evs with
  | [] => true
  | Returned c r :: evs' =>
      (respond history c =? r)
      && answers_agree respond (history ++ [Returned c r]) evs'
  | e :: evs' => answers_agree respond (history ++ [e]) evs'
  end.

(** An invocation of the handler that reads [val], placed between the two
    events [w1] and [w2] of a power callback. *)
Definition served_between (ec : yoga_slim7x_ec) (val : Z) (w1 w2 : event)
  : schedule :=
  (PmCallback, w1)
  :: map (pair IrqThread) (irq_events ec val) ++ [(PmCallback, w2)].

(** A micmute interrupt served between the two writes of a suspend. *)
Definition irq_inside_suspend : schedule :=
  [ (PmCallback,
     Returned (I2cSmbusWriteByteData ec_client EC_SUSPEND_RESUME_REG
                 EC_NOTIFY_SCREEN_OFF) 0);
    (IrqThread, MutexLock 8192);
    (IrqThread,
     Returned (I2cSmbusReadByteData ec_client EC_IRQ_REASON_REG) 0x04);
    (IrqThread, InputReportKey 4096 KEY_MICMUTE 1);
    (IrqThread, InputSync 4096);
    (IrqThread, InputReportKey 4096 KEY_MICMUTE 0);
    (IrqThread, InputSync 4096);
    (IrqThread, MutexUnlock 8192);
    (PmCallback,
     Returned (I2cSmbusWriteByteData ec_client EC_SUSPEND_RESUME_REG
                 EC_NOTIFY_SUSPEND_ENTER) 0) ].

(** ** Sequences of operations *)

(** [n] interrupts served one after the other by the interrupt thread.
    The handler is requested with [IRQF_ONESHOT], so an invocation ends
    before the next one starts. *)
Fixpoint irq_repeat (n : nat) (irq : Z) (ec : yoga_slim7x_ec)
  : kernelM unit :=
  match n with
  | O => ret tt
  | S n' => yoga_slim7x_ec_irq irq ec ;; irq_repeat n' irq ec
  end.

(** What one read of the reason register brings to the input core and to
    the device log. *)
Definition key_pair (ec : yoga_slim7x_ec) (val : Z) : list event :=
  if val =? EC_IRQ_MICMUTE_BUTTON then
    [InputReportKey (idev ec) KEY_MICMUTE 1; InputSync (idev ec);
     InputReportKey (idev ec) KEY_MICMUTE 0; InputSync (idev ec)]
  else [].

Definition log_line (ec : yoga_slim7x_ec) (val : Z) : list event :=
  if val <? 0 then
    [DevErr (client_dev (client ec)) "Failed to get EC IRQ reason: %d\n" val]
  else if val =? EC_IRQ_MICMUTE_BUTTON then []
  else
    [DevInfo (client_dev (client ec)) "Unhandled EC IRQ reason: %d\n" val].

(** A suspend followed by a resume, and an attach followed by a detach,
    each returning what the callbacks returned. *)
Definition suspend_then_resume (dev : device) : kernelM (Z * Z) :=
  r1 <- yoga_slim7x_ec_suspend dev ;;
  r2 <- yoga_slim7x_ec_resume dev ;;
  ret (r1, r2).

Definition probe_then_remove (client : i2c_client) : kernelM Z :=
  r <- yoga_slim7x_ec_probe client ;;
  yoga_slim7x_ec_remove client ;;
  ret r.

(** [a] happens before [b] in [evs]. *)
Definition precedes (a b : event) (evs : list event) : Prop :=
  exists l1 l2 l3, evs = l1 ++ a :: l2 ++ b :: l3.

(** An outside world in which memory is available and the input core has
    no device to give. *)
Definition no_input_device : kernel :=
  {| trace := [];
     respond := fun _ c =>
       match c with
       | DevmKzalloc _ => 8192
       | _ => 0
       end |}.

(** ** Facts about running *)

Lemma runs_result {A : Type} (m : kernelM A) (k : kernel) (a : A)
  (evs : list event) :
  runs m k a evs -> result m k = a.
Proof. unfold runs, result. now intros ->. Qed.

Lemma skipn_length_app {A : Type} (l1 l2 : list A) :
  skipn (List.length l1) (l1 ++ l2) = l2.
Proof. induction l1 as [|x l1 IH]; cbn; auto. Qed.

Lemma runs_emitted {A : Type} (m : kernelM A) (k : kernel) (a : A)
  (evs : list event) :
  runs m k a evs -> emitted m k = evs.
Proof.
  unfold runs, emitted. intros ->. cbn. apply skipn_length_app.
Qed.

(** ** The interrupt handler: execution *)

Lemma irq_runs (irq : Z) (ec : yoga_slim7x_ec) (k : kernel) :
  runs (yoga_slim7x_ec_irq irq ec) k IRQ_HANDLED
       (irq_events ec (irq_reason ec k)).
Proof.
  unfold runs, irq_events, irq_reason, irq_dispatch.
  unfold yoga_slim7x_ec_irq, guard_mutex, mutex_lock, mutex_unlock,
    i2c_smbus_read_byte_data, dev_err, dev_info, input_report_key,
    input_sync.
  unfold bind, emit, invoke, ret, extend. cbn.
  destruct (_ <? 0); cbn.
  - now rewrite <- !app_assoc.
  - destruct (_ =? EC_IRQ_MICMUTE_BUTTON); cbn; now rewrite <- !app_assoc.
Qed.

Lemma irq_emitted (irq : Z) (ec : yoga_slim7x_ec) (k : kernel) :
  emitted (yoga_slim7x_ec_irq irq ec) k = irq_events ec (irq_reason ec k).
Proof. exact (runs_emitted _ _ _ _ (irq_runs irq ec k)). Qed.

Lemma irq_result (irq : Z) (ec : yoga_slim7x_ec) (k : kernel) :
  result (yoga_slim7x_ec_irq irq ec) k = IRQ_HANDLED.
Proof. exact (runs_result _ _ _ _ (irq_runs irq ec k)). Qed.

Lemma bus_reads_irq_events (ec : yoga_slim7x_ec) (val : Z) :
  bus_reads (irq_events ec val) = [(EC_IRQ_REASON_REG, val)].
Proof.
  unfold irq_events, irq_dispatch.
  destruct (val <? 0); [reflexivity|].
  destruct (val =? EC_IRQ_MICMUTE_BUTTON); reflexivity.
Qed.

Lemma bus_writes_irq_events (ec : yoga_slim7x_ec) (val : Z) :
  bus_writes (irq_events ec val) = [].
Proof.
  unfold irq_events, irq_dispatch.
  destruct (val <? 0); [reflexivity|].
  destruct (val =? EC_IRQ_MICMUTE_BUTTON); reflexivity.
Qed.

(** The value found in the history of an invocation is the value the
    handler dispatched on. *)
Lemma irq_read_value (irq : Z) (ec : yoga_slim7x_ec) (k : kernel) (val : Z) :
  bus_reads (emitted (yoga_slim7x_ec_irq irq ec) k)
    = [(EC_IRQ_REASON_REG, val)] ->
  irq_reason ec k = val.
Proof.
  rewrite irq_emitted, bus_reads_irq_events. congruence.
Qed.

(** ** The interrupt handler: theorems *)

(** C1. Whenever the handler's read of the reason register returns the
    micmute code, the input core receives exactly press(KEY_MICMUTE), sync,
    release(KEY_MICMUTE), sync, in that order; nothing is logged, and the
    whole invocation is: take the lock, read, the four input events,
    release the lock. *)
Theorem irq_micmute_press_sync_release_sync
  (irq : Z) (ec : yoga_slim7x_ec) (k : kernel) :
  bus_reads (emitted (yoga_slim7x_ec_irq irq ec) k)
    = [(EC_IRQ_REASON_REG, EC_IRQ_MICMUTE_BUTTON)] ->
  input_events (emitted (yoga_slim7x_ec_irq irq ec) k)
    = [InputReportKey (idev ec) KEY_MICMUTE 1; InputSync (idev ec);
       InputReportKey (idev ec) KEY_MICMUTE 0; InputSync (idev ec)]
  /\ diagnostics (emitted (yoga_slim7x_ec_irq irq ec) k) = []
  /\ emitted (yoga_slim7x_ec_irq irq ec) k
    = [MutexLock (lock ec);
       Returned (I2cSmbusReadByteData (client ec) EC_IRQ_REASON_REG)
                EC_IRQ_MICMUTE_BUTTON;
       InputReportKey (idev ec) KEY_MICMUTE 1; InputSync (idev ec);
       InputReportKey (idev ec) KEY_MICMUTE 0; InputSync (idev ec);
       MutexUnlock (lock ec)].
Proof.
  intros Hread. apply irq_read_value in Hread.
  rewrite irq_emitted, Hread. repeat split; reflexivity.
Qed.

Lemma irq_micmute_press_sync_release_sync_witness :
  bus_reads (emitted (yoga_slim7x_ec_irq 66 ec_state) (answering 0x04 0 0))
    = [(EC_IRQ_REASON_REG, EC_IRQ_MICMUTE_BUTTON)]
  /\ input_events
       (emitted (yoga_slim7x_ec_irq 66 ec_state) (answering 0x04 0 0))
    = [InputReportKey 4096 KEY_MICMUTE 1; InputSync 4096;
       InputReportKey 4096 KEY_MICMUTE 0; InputSync 4096].
Proof.
  split; [reflexivity|].
  apply (irq_micmute_press_sync_release_sync 66 ec_state (answering 0x04 0 0)).
  reflexivity.
Defined.

(** C5. Whenever the handler's read of the reason register fails (returns
    a negative errno), nothing reaches the input core, the failure is
    logged once with the errno, and the handler returns IRQ_HANDLED. *)
Theorem irq_read_failure_is_logged_and_handled
  (irq : Z) (ec : yoga_slim7x_ec) (k : kernel) (err : Z) :
  bus_reads (emitted (yoga_slim7x_ec_irq irq ec) k)
    = [(EC_IRQ_REASON_REG, err)] ->
  err < 0 ->
  input_events (emitted (yoga_slim7x_ec_irq irq ec) k) = []
  /\ diagnostics (emitted (yoga_slim7x_ec_irq irq ec) k)
    = [DevErr (client_dev (client ec))
              "Failed to get EC IRQ reason: %d\n" err]
  /\ result (yoga_slim7x_ec_irq irq ec) k = IRQ_HANDLED.
Proof.
  intros Hread Herr. apply irq_read_value in Hread.
  rewrite irq_result, irq_emitted, Hread.
  unfold irq_events, irq_dispatch.
  apply Z.ltb_lt in Herr. rewrite Herr. repeat split; reflexivity.
Qed.

Lemma irq_read_failure_is_logged_and_handled_witness :
  input_events
    (emitted (yoga_slim7x_ec_irq 66 ec_state) (answering (- EIO) 0 0)) = []
  /\ diagnostics
       (emitted (yoga_slim7x_ec_irq 66 ec_state) (answering (- EIO) 0 0))
    = [DevErr ec_client "Failed to get EC IRQ reason: %d\n" (- EIO)]
  /\ result (yoga_slim7x_ec_irq 66 ec_state) (answering (- EIO) 0 0)
    = IRQ_HANDLED.
Proof.
  apply (irq_read_failure_is_logged_and_handled
           66 ec_state (answering (- EIO) 0 0) (- EIO)).
  - reflexivity.
  - reflexivity.
Defined.

Lemma unmapped_reason_codes_no_action (val : Z) :
  In val unmapped_reason_codes ->
  0 <= val /\ val <> EC_IRQ_MICMUTE_BUTTON.
Proof.
  unfold unmapped_reason_codes. cbn [In].
  intros H.
  repeat (destruct H as [<- | H]; [split; [discriminate | discriminate]|]).
  contradiction.
Qed.

(** C6. Whenever the handler's read of the reason register succeeds with a
    value other than the micmute code -- in particular with any of the
    fan, thermal, reset, function-key and assistant-key codes the source
    names -- nothing reaches the input core and the only record of the
    invocation is one informational log line carrying the value. *)
Theorem irq_other_reason_only_logged
  (irq : Z) (ec : yoga_slim7x_ec) (k : kernel) (val : Z) :
  bus_reads (emitted (yoga_slim7x_ec_irq irq ec) k)
    = [(EC_IRQ_REASON_REG, val)] ->
  (0 <= val /\ val <> EC_IRQ_MICMUTE_BUTTON) \/ In val unmapped_reason_codes ->
  input_events (emitted (yoga_slim7x_ec_irq irq ec) k) = []
  /\ diagnostics (emitted (yoga_slim7x_ec_irq irq ec) k)
    = [DevInfo (client_dev (client ec)) "Unhandled EC IRQ reason: %d\n" val].
Proof.
  intros Hread Hval. apply irq_read_value in Hread.
  assert (0 <= val /\ val <> EC_IRQ_MICMUTE_BUTTON) as [Hpos Hne].
  { destruct Hval as [H | H]; [exact H|].
    now apply unmapped_reason_codes_no_action. }
  rewrite irq_emitted, Hread.
  unfold irq_events, irq_dispatch.
  apply Z.ltb_ge in Hpos. rewrite Hpos.
  apply Z.eqb_neq in Hne. rewrite Hne.
  split; reflexivity.
Qed.

Lemma irq_other_reason_only_logged_witness :
  input_events
    (emitted (yoga_slim7x_ec_irq 66 ec_state)
             (answering EC_IRQ_THERMISTOR_1_TEMP_THRESHOLD_CROSS 0 0)) = []
  /\ diagnostics
       (emitted (yoga_slim7x_ec_irq 66 ec_state)
                (answering EC_IRQ_THERMISTOR_1_TEMP_THRESHOLD_CROSS 0 0))
     = [DevInfo ec_client "Unhandled EC IRQ reason: %d\n" 0x36].
Proof.
  apply (irq_other_reason_only_logged 66 ec_state
           (answering EC_IRQ_THERMISTOR_1_TEMP_THRESHOLD_CROSS 0 0) 0x36).
  - reflexivity.
  - left. split; [discriminate | discriminate].
Defined.

(** C10. Whatever the reason-register read returns -- an error, the
    micmute code or any other value -- the handler returns IRQ_HANDLED,
    having made exactly one SMBus read (of the reason register) and no
    SMBus write. *)
Theorem irq_always_handled_one_read_no_write
  (irq : Z) (ec : yoga_slim7x_ec) (k : kernel) :
  result (yoga_slim7x_ec_irq irq ec) k = IRQ_HANDLED
  /\ bus_reads (emitted (yoga_slim7x_ec_irq irq ec) k)
     = [(EC_IRQ_REASON_REG, irq_reason ec k)]
  /\ bus_writes (emitted (yoga_slim7x_ec_irq irq ec) k) = [].
Proof.
  rewrite irq_result, irq_emitted.
  rewrite bus_reads_irq_events, bus_writes_irq_events.
  repeat split.
Qed.

(** Every value is a possible outcome of the read. *)
Lemma irq_reason_answering (ec : yoga_slim7x_ec) (val : Z) :
  irq_reason ec (answering val 0 0) = val.
Proof. reflexivity. Qed.

(** ** The power sequencer: execution *)

Lemma suspend_runs_abort (dev : device) (k : kernel) :
  first_write (to_i2c_client dev) EC_NOTIFY_SCREEN_OFF k <> 0 ->
  runs (yoga_slim7x_ec_suspend dev) k
       (first_write (to_i2c_client dev) EC_NOTIFY_SCREEN_OFF k)
       [notify (to_i2c_client dev) EC_NOTIFY_SCREEN_OFF
          (first_write (to_i2c_client dev) EC_NOTIFY_SCREEN_OFF k)].
Proof.
  unfold first_write, runs, yoga_slim7x_ec_suspend,
    i2c_smbus_write_byte_data, notify.
  unfold bind, invoke, ret, extend. cbn.
  intros H. apply Z.eqb_neq in H. now rewrite H.
Qed.

Lemma suspend_runs_through (dev : device) (k : kernel) :
  first_write (to_i2c_client dev) EC_NOTIFY_SCREEN_OFF k = 0 ->
  runs (yoga_slim7x_ec_suspend dev) k
       (second_write (to_i2c_client dev)
          EC_NOTIFY_SCREEN_OFF EC_NOTIFY_SUSPEND_ENTER k)
       [notify (to_i2c_client dev) EC_NOTIFY_SCREEN_OFF 0;
        notify (to_i2c_client dev) EC_NOTIFY_SUSPEND_ENTER
          (second_write (to_i2c_client dev)
             EC_NOTIFY_SCREEN_OFF EC_NOTIFY_SUSPEND_ENTER k)].
Proof.
  unfold first_write, second_write, runs, yoga_slim7x_ec_suspend,
    i2c_smbus_write_byte_data, notify.
  unfold bind, invoke, ret, extend. cbn.
  intros H. rewrite H. cbn.
  destruct (_ =? 0) eqn:E; cbn; rewrite <- app_assoc; cbn.
  - apply Z.eqb_eq in E. now rewrite E.
  - reflexivity.
Qed.

Lemma resume_runs_abort (dev : device) (k : kernel) :
  first_write (to_i2c_client dev) EC_NOTIFY_SUSPEND_EXIT k <> 0 ->
  runs (yoga_slim7x_ec_resume dev) k
       (first_write (to_i2c_client dev) EC_NOTIFY_SUSPEND_EXIT k)
       [notify (to_i2c_client dev) EC_NOTIFY_SUSPEND_EXIT
          (first_write (to_i2c_client dev) EC_NOTIFY_SUSPEND_EXIT k)].
Proof.
  unfold first_write, runs, yoga_slim7x_ec_resume,
    i2c_smbus_write_byte_data, notify.
  unfold bind, invoke, ret, extend. cbn.
  intros H. apply Z.eqb_neq in H. now rewrite H.
Qed.

Lemma resume_runs_through (dev : device) (k : kernel) :
  first_write (to_i2c_client dev) EC_NOTIFY_SUSPEND_EXIT k = 0 ->
  runs (yoga_slim7x_ec_resume dev) k
       (second_write (to_i2c_client dev)
          EC_NOTIFY_SUSPEND_EXIT EC_NOTIFY_SCREEN_ON k)
       [notify (to_i2c_client dev) EC_NOTIFY_SUSPEND_EXIT 0;
        notify (to_i2c_client dev) EC_NOTIFY_SCREEN_ON
          (second_write (to_i2c_client dev)
             EC_NOTIFY_SUSPEND_EXIT EC_NOTIFY_SCREEN_ON k)].
Proof.
  unfold first_write, second_write, runs, yoga_slim7x_ec_resume,
    i2c_smbus_write_byte_data, notify.
  unfold bind, invoke, ret, extend. cbn.
  intros H. rewrite H. cbn.
  destruct (_ =? 0) eqn:E; cbn; rewrite <- app_assoc; cbn.
  - apply Z.eqb_eq in E. now rewrite E.
  - reflexivity.
Qed.

(** ** The power sequencer: theorems *)

(** C3. Every suspend starts with the ScreenOff write (0x03 to the
    suspend/resume register).  If that write fails, it is the only thing
    suspend does -- no SuspendEnter write, no compensating write -- and its
    error is returned.  If it succeeds, the SuspendEnter write (0x01)
    follows it, nothing else is done, and suspend returns what that second
    write returned: success when both succeed. *)
Theorem suspend_screen_off_then_suspend_enter (dev : device) (k : kernel) :
  exists r1 : Z,
    hd_error (emitted (yoga_slim7x_ec_suspend dev) k)
      = Some (Returned (I2cSmbusWriteByteData (to_i2c_client dev)
                          EC_SUSPEND_RESUME_REG EC_NOTIFY_SCREEN_OFF) r1)
    /\ (r1 <> 0 ->
        emitted (yoga_slim7x_ec_suspend dev) k
          = [Returned (I2cSmbusWriteByteData (to_i2c_client dev)
                         EC_SUSPEND_RESUME_REG EC_NOTIFY_SCREEN_OFF) r1]
        /\ result (yoga_slim7x_ec_suspend dev) k = r1)
    /\ (r1 = 0 ->
        exists r2 : Z,
          emitted (yoga_slim7x_ec_suspend dev) k
            = [Returned (I2cSmbusWriteByteData (to_i2c_client dev)
                           EC_SUSPEND_RESUME_REG EC_NOTIFY_SCREEN_OFF) 0;
               Returned (I2cSmbusWriteByteData (to_i2c_client dev)
                           EC_SUSPEND_RESUME_REG EC_NOTIFY_SUSPEND_ENTER) r2]
          /\ result (yoga_slim7x_ec_suspend dev) k = r2
          /\ (r2 = 0 -> result (yoga_slim7x_ec_suspend dev) k = 0)).
Proof.
  exists (first_write (to_i2c_client dev) EC_NOTIFY_SCREEN_OFF k).
  destruct (Z.eq_dec (first_write (to_i2c_client dev) EC_NOTIFY_SCREEN_OFF k) 0)
    as [H0 | Hne].
  - pose proof (suspend_runs_through dev k H0) as Hrun.
    rewrite (runs_emitted _ _ _ _ Hrun), (runs_result _ _ _ _ Hrun), H0.
    split; [reflexivity|]. split; [intros Hne; now elim Hne|].
    intros _. eexists. split; [reflexivity|]. split; [reflexivity|].
    intros ->. reflexivity.
  - pose proof (suspend_runs_abort dev k Hne) as Hrun.
    rewrite (runs_emitted _ _ _ _ Hrun), (runs_result _ _ _ _ Hrun).
    split; [reflexivity|]. split; [|contradiction].
    intros _. split; reflexivity.
Qed.

(** C4. Every resume starts with the SuspendExit write (0x00 to the
    suspend/resume register).  If that write fails, it is the only thing
    resume does -- the ScreenOn write is not attempted -- and its error is
    returned.  If it succeeds, the ScreenOn write (0x04) follows it,
    nothing else is done, and resume returns what that second write
    returned: success when both succeed. *)
Theorem resume_suspend_exit_then_screen_on (dev : device) (k : kernel) :
  exists r1 : Z,
    hd_error (emitted (yoga_slim7x_ec_resume dev) k)
      = Some (Returned (I2cSmbusWriteByteData (to_i2c_client dev)
                          EC_SUSPEND_RESUME_REG EC_NOTIFY_SUSPEND_EXIT) r1)
    /\ (r1 <> 0 ->
        emitted (yoga_slim7x_ec_resume dev) k
          = [Returned (I2cSmbusWriteByteData (to_i2c_client dev)
                         EC_SUSPEND_RESUME_REG EC_NOTIFY_SUSPEND_EXIT) r1]
        /\ result (yoga_slim7x_ec_resume dev) k = r1)
    /\ (r1 = 0 ->
        exists r2 : Z,
          emitted (yoga_slim7x_ec_resume dev) k
            = [Returned (I2cSmbusWriteByteData (to_i2c_client dev)
                           EC_SUSPEND_RESUME_REG EC_NOTIFY_SUSPEND_EXIT) 0;
               Returned (I2cSmbusWriteByteData (to_i2c_client dev)
                           EC_SUSPEND_RESUME_REG EC_NOTIFY_SCREEN_ON) r2]
          /\ result (yoga_slim7x_ec_resume dev) k = r2
          /\ (r2 = 0 -> result (yoga_slim7x_ec_resume dev) k = 0)).
Proof.
  exists (first_write (to_i2c_client dev) EC_NOTIFY_SUSPEND_EXIT k).
  destruct (Z.eq_dec (first_write (to_i2c_client dev) EC_NOTIFY_SUSPEND_EXIT k) 0)
    as [H0 | Hne].
  - pose proof (resume_runs_through dev k H0) as Hrun.
    rewrite (runs_emitted _ _ _ _ Hrun), (runs_result _ _ _ _ Hrun), H0.
    split; [reflexivity|]. split; [intros Hne; now elim Hne|].
    intros _. eexists. split; [reflexivity|]. split; [reflexivity|].
    intros ->. reflexivity.
  - pose proof (resume_runs_abort dev k Hne) as Hrun.
    rewrite (runs_emitted _ _ _ _ Hrun), (runs_result _ _ _ _ Hrun).
    split; [reflexivity|]. split; [|contradiction].
    intros _. split; reflexivity.
Qed.

Lemma suspend_screen_off_then_suspend_enter_witness :
  emitted (yoga_slim7x_ec_suspend ec_client) (answering 0 (- EIO) 0)
    = [Returned (I2cSmbusWriteByteData ec_client 0x23 0x03) (- EIO)]
  /\ result (yoga_slim7x_ec_suspend ec_client) (answering 0 (- EIO) 0)
    = - EIO.
Proof.
  destruct (suspend_screen_off_then_suspend_enter
              ec_client (answering 0 (- EIO) 0)) as (r1 & Hhd & Hfail & _).
  cbn in Hhd. injection Hhd as <-.
  apply Hfail. discriminate.
Defined.

Lemma resume_suspend_exit_then_screen_on_witness :
  exists r2 : Z,
    emitted (yoga_slim7x_ec_resume ec_client) (answering 0 0 0)
      = [Returned (I2cSmbusWriteByteData ec_client 0x23 0x00) 0;
         Returned (I2cSmbusWriteByteData ec_client 0x23 0x04) r2]
    /\ result (yoga_slim7x_ec_resume ec_client) (answering 0 0 0) = r2
    /\ (r2 = 0 -> result (yoga_slim7x_ec_resume ec_client) (answering 0 0 0) = 0).
Proof.
  destruct (resume_suspend_exit_then_screen_on
              ec_client (answering 0 0 0)) as (r1 & Hhd & _ & Hok).
  cbn in Hhd. injection Hhd as <-.
  apply Hok. reflexivity.
Defined.

(** ** Detach: execution and theorem *)

Lemma remove_runs (client : i2c_client) (k : kernel) :
  runs (yoga_slim7x_ec_remove client) k tt
    (Returned (I2cSmbusWriteByteData client EC_IRQ_ENABLE_REG 0x00)
              (disable_result client k)
     :: if disable_result client k <? 0
        then [DevErr (client_dev client) "Failed to disable interrupts: %d\n"
                     (disable_result client k)]
        else []).
Proof.
  unfold disable_result, runs, yoga_slim7x_ec_remove,
    i2c_smbus_write_byte_data, dev_err.
  unfold bind, invoke, emit, ret, extend. cbn.
  destruct (_ <? 0); cbn.
  - now rewrite <- app_assoc.
  - reflexivity.
Qed.

(** C8. Every detach makes exactly one SMBus transfer, a write of 0x00 to
    the IRQ-enable register.  If that write fails, the only consequence is
    one error line in the log; otherwise nothing else happens.  In both
    cases the function runs to its end and has no status to return. *)
Theorem remove_disables_irq_once_and_swallows_failure
  (client : i2c_client) (k : kernel) :
  exists r : Z,
    bus_writes (emitted (yoga_slim7x_ec_remove client) k)
      = [(EC_IRQ_ENABLE_REG, 0x00, r)]
    /\ bus_reads (emitted (yoga_slim7x_ec_remove client) k) = []
    /\ (r < 0 ->
        emitted (yoga_slim7x_ec_remove client) k
          = [Returned (I2cSmbusWriteByteData client EC_IRQ_ENABLE_REG 0x00) r;
             DevErr (client_dev client)
                    "Failed to disable interrupts: %d\n" r])
    /\ (0 <= r ->
        emitted (yoga_slim7x_ec_remove client) k
          = [Returned (I2cSmbusWriteByteData client EC_IRQ_ENABLE_REG 0x00) r])
    /\ result (yoga_slim7x_ec_remove client) k = tt.
Proof.
  exists (disable_result client k).
  pose proof (remove_runs client k) as Hrun.
  rewrite (runs_emitted _ _ _ _ Hrun), (runs_result _ _ _ _ Hrun).
  destruct (disable_result client k <? 0) eqn:E.
  - apply Z.ltb_lt in E. repeat split; try reflexivity. intros; lia.
  - apply Z.ltb_ge in E. repeat split; try reflexivity. intros; lia.
Qed.

Lemma remove_disables_irq_once_and_swallows_failure_witness :
  emitted (yoga_slim7x_ec_remove ec_client) (answering 0 (- EIO) 0)
    = [Returned (I2cSmbusWriteByteData ec_client 0x35 0x00) (- EIO);
       DevErr ec_client "Failed to disable interrupts: %d\n" (- EIO)].
Proof.
  destruct (remove_disables_irq_once_and_swallows_failure
              ec_client (answering 0 (- EIO) 0)) as (r & Hw & _ & Hfail & _).
  cbn in Hw. injection Hw as <-.
  apply Hfail. reflexivity.
Defined.

(** ** Attach: execution *)

(** Name the answer the next test looks at, and split on the test. *)
Ltac branch_on_answer :=
  match goal with
  | |- context [if ?a =? 0 then _ else _] =>
      let v := fresh "v" in
      let Hv := fresh "Hv" in
      let E := fresh "E" in
      remember a as v eqn:Hv; clear Hv;
      destruct (v =? 0) eqn:E;
      [apply Z.eqb_eq in E; subst v | apply Z.eqb_neq in E]
  | |- context [if ?a <? 0 then _ else _] =>
      let v := fresh "v" in
      let Hv := fresh "Hv" in
      let E := fresh "E" in
      remember a as v eqn:Hv; clear Hv;
      destruct (v <? 0) eqn:E;
      [apply Z.ltb_lt in E | apply Z.ltb_ge in E]
  end; cbn.

Ltac outcome :=
  do 2 eexists; rewrite <- ?app_assoc; cbn;
  split; [reflexivity | now constructor].

Lemma probe_runs (client : i2c_client) (k : kernel) :
  exists (r : Z) (evs : list event),
    runs (yoga_slim7x_ec_probe client) k r evs /\ probe_outcome client r evs.
Proof.
  unfold runs, yoga_slim7x_ec_probe, devm_kzalloc, mutex_init,
    devm_input_allocate_device, input_set_capability,
    input_register_device, devm_request_threaded_irq,
    i2c_smbus_write_byte_data, dev_err_probe.
  unfold bind, invoke, emit, ret, extend. cbn.
  branch_on_answer; [outcome|].
  branch_on_answer; [outcome|].
  branch_on_answer; [outcome|].
  branch_on_answer; [outcome|].
  branch_on_answer; outcome.
Qed.

Lemma probe_cases (client : i2c_client) (k : kernel) :
  probe_outcome client (result (yoga_slim7x_ec_probe client) k)
                (emitted (yoga_slim7x_ec_probe client) k).
Proof.
  destruct (probe_runs client k) as (r & evs & Hrun & Hout).
  now rewrite (runs_result _ _ _ _ Hrun), (runs_emitted _ _ _ _ Hrun).
Qed.

(** ** Attach: theorems *)

(** Peel events off the front of a history known to be [pre ++ e :: post]. *)
Ltac locate_event H pre :=
  destruct pre as [|? pre]; cbn [app] in H;
  [ try discriminate H; inversion H; subst
  | first [ discriminate H
          | injection H as <- H; locate_event H pre ] ].

(** C7. In every attach, an SMBus write, if there is one, is the write of
    1 to the IRQ-enable register of this client; it comes after the input
    device has been registered successfully and, after that, the interrupt
    handler has been requested successfully, and it is followed by no
    further service call (only by the error line when the write itself
    fails).  If
    registering the input device fails, or requesting the interrupt fails,
    attach returns that error and makes no SMBus write at all. *)
Theorem probe_enables_irq_last_and_only_when_armed
  (client : i2c_client) (k : kernel) :
  (forall pre c reg v x post,
      emitted (yoga_slim7x_ec_probe client) k
        = pre ++ Returned (I2cSmbusWriteByteData c reg v) x :: post ->
      c = client /\ reg = EC_IRQ_ENABLE_REG /\ v = 0x01
      /\ (exists l1 e1 l2 e2 l3,
             pre = l1 ++ e1 :: l2 ++ e2 :: l3
             /\ input_registered e1 = true /\ handler_armed e2 = true)
      /\ (forall e, In e post -> is_diagnostic e = true)
      /\ (0 <= x -> post = []))
  /\ (forall idev name phys err,
         In (Returned (InputRegisterDevice idev name phys) err)
            (emitted (yoga_slim7x_ec_probe client) k) ->
         err < 0 ->
         result (yoga_slim7x_ec_probe client) k = err
         /\ bus_writes (emitted (yoga_slim7x_ec_probe client) k) = [])
  /\ (forall dev irq flags devname dev_id err,
         In (Returned (DevmRequestThreadedIrq dev irq flags devname dev_id)
                      err)
            (emitted (yoga_slim7x_ec_probe client) k) ->
         err < 0 ->
         result (yoga_slim7x_ec_probe client) k = err
         /\ bus_writes (emitted (yoga_slim7x_ec_probe client) k) = []).
Proof.
  pose proof (probe_cases client k) as Hout.
  remember (result (yoga_slim7x_ec_probe client) k) as r eqn:Hr.
  remember (emitted (yoga_slim7x_ec_probe client) k) as evs eqn:Hevs.
  clear Hr Hevs.
  split; [|split].
  - intros pre c reg v x post H.
    destruct Hout as
      [ | ec _ | ec idev err _ _ _ | ec idev r1 err _ _ _ _
      | ec idev r1 r2 err _ _ H1 H2 H3 | ec idev r1 r2 r3 _ _ H1 H2 H3 ];
      unfold ev_kzalloc, ev_input_allocate, ev_input_register,
        ev_request_irq, ev_enable_irq in H;
      locate_event H pre.
    + do 3 (split; [reflexivity|]). split.
      * eexists [_; _; _; _], _, [], _, []. cbn.
        split; [reflexivity|]. split; now apply Z.leb_le.
      * split.
        -- intros e [<- | []]. reflexivity.
        -- intros; lia.
    + do 3 (split; [reflexivity|]). split.
      * eexists [_; _; _; _], _, [], _, []. cbn.
        split; [reflexivity|]. split; now apply Z.leb_le.
      * split.
        -- intros e [].
        -- reflexivity.
  - intros idev name phys err Hin Herr.
    destruct Hout as
      [ | ec _ | ec idev' err' _ _ _ | ec idev' r1 err' _ _ H1 _
      | ec idev' r1 r2 err' _ _ H1 H2 H3 | ec idev' r1 r2 r3 _ _ H1 H2 H3 ];
      cbn in Hin;
      repeat (destruct Hin as [Hin | Hin];
              [try discriminate Hin; inversion Hin; subst|]);
      try contradiction; try lia.
    split; reflexivity.
  - intros dev irq flags devname dev_id err Hin Herr.
    destruct Hout as
      [ | ec _ | ec idev' err' _ _ _ | ec idev' r1 err' _ _ H1 _
      | ec idev' r1 r2 err' _ _ H1 H2 H3 | ec idev' r1 r2 r3 _ _ H1 H2 H3 ];
      cbn in Hin;
      repeat (destruct Hin as [Hin | Hin];
              [try discriminate Hin; inversion Hin; subst|]);
      try contradiction; try lia.
    split; reflexivity.
Qed.

Lemma probe_enables_irq_last_and_only_when_armed_witness :
  result (yoga_slim7x_ec_probe ec_client) refusing_input_device = - EINVAL
  /\ bus_writes (emitted (yoga_slim7x_ec_probe ec_client)
                         refusing_input_device) = [].
Proof.
  apply (proj1 (proj2 (probe_enables_irq_last_and_only_when_armed
                         ec_client refusing_input_device))
           4096 "yoga-slim7x-ec" "yoga-slim7x-ec/input0" (- EINVAL)).
  - cbn. do 4 right. left. reflexivity.
  - reflexivity.
Defined.

Example probe_attaches :
  yoga_slim7x_ec_probe ec_client accepting
  = (0, extend accepting
          [ev_kzalloc ec_client 8192; MutexInit 8192;
           ev_input_allocate ec_client 4096;
           InputSetCapability 4096 EV_KEY KEY_MICMUTE;
           ev_input_register 4096 0;
           ev_request_irq ec_client 8192 4096 0;
           ev_enable_irq ec_client 0]).
Proof. reflexivity. Qed.

(** ** The register map in use *)

Lemma suspend_write_attempts (dev : device) (k : kernel) :
  bus_write_attempts (emitted (yoga_slim7x_ec_suspend dev) k)
    = [(EC_SUSPEND_RESUME_REG, EC_NOTIFY_SCREEN_OFF)]
  \/ bus_write_attempts (emitted (yoga_slim7x_ec_suspend dev) k)
    = [(EC_SUSPEND_RESUME_REG, EC_NOTIFY_SCREEN_OFF);
       (EC_SUSPEND_RESUME_REG, EC_NOTIFY_SUSPEND_ENTER)].
Proof.
  destruct (Z.eq_dec (first_write (to_i2c_client dev) EC_NOTIFY_SCREEN_OFF k) 0)
    as [H0 | Hne].
  - right. now rewrite (runs_emitted _ _ _ _ (suspend_runs_through dev k H0)).
  - left. now rewrite (runs_emitted _ _ _ _ (suspend_runs_abort dev k Hne)).
Qed.

Lemma resume_write_attempts (dev : device) (k : kernel) :
  bus_write_attempts (emitted (yoga_slim7x_ec_resume dev) k)
    = [(EC_SUSPEND_RESUME_REG, EC_NOTIFY_SUSPEND_EXIT)]
  \/ bus_write_attempts (emitted (yoga_slim7x_ec_resume dev) k)
    = [(EC_SUSPEND_RESUME_REG, EC_NOTIFY_SUSPEND_EXIT);
       (EC_SUSPEND_RESUME_REG, EC_NOTIFY_SCREEN_ON)].
Proof.
  destruct (Z.eq_dec (first_write (to_i2c_client dev) EC_NOTIFY_SUSPEND_EXIT k) 0)
    as [H0 | Hne].
  - right. now rewrite (runs_emitted _ _ _ _ (resume_runs_through dev k H0)).
  - left. now rewrite (runs_emitted _ _ _ _ (resume_runs_abort dev k Hne)).
Qed.

Lemma probe_write_attempts (client : i2c_client) (k : kernel) :
  bus_write_attempts (emitted (yoga_slim7x_ec_probe client) k) = []
  \/ bus_write_attempts (emitted (yoga_slim7x_ec_probe client) k)
    = [(EC_IRQ_ENABLE_REG, 0x01)].
Proof.
  destruct (probe_cases client k); auto.
Qed.

Lemma remove_write_attempts (client : i2c_client) (k : kernel) :
  bus_write_attempts (emitted (yoga_slim7x_ec_remove client) k)
    = [(EC_IRQ_ENABLE_REG, 0x00)].
Proof.
  rewrite (runs_emitted _ _ _ _ (remove_runs client k)).
  destruct (disable_result client k <? 0); reflexivity.
Qed.

Lemma irq_input_events_iff_micmute (ec : yoga_slim7x_ec) (val : Z) :
  input_events (irq_events ec val) <> [] <-> val = EC_IRQ_MICMUTE_BUTTON.
Proof.
  unfold irq_events, irq_dispatch.
  destruct (val <? 0) eqn:Hneg.
  - apply Z.ltb_lt in Hneg. cbn. split; [congruence|].
    intros ->. discriminate Hneg.
  - destruct (val =? EC_IRQ_MICMUTE_BUTTON) eqn:Heq; cbn.
    + apply Z.eqb_eq in Heq. split; [auto | discriminate].
    + apply Z.eqb_neq in Heq. split; [congruence | contradiction].
Qed.

(** C9. The constants are those of the register table -- reason register
    0x05, suspend/resume register 0x23, IRQ-enable register 0x35;
    SuspendEnter 0x01, SuspendExit 0x00, ScreenOff 0x03, ScreenOn 0x04;
    micmute code 0x04 -- and they are the ones in use: the handler reads
    register 0x05; suspend writes 0x03 and then at most 0x01 to 0x23;
    resume writes 0x00 and then at most 0x04 to 0x23; attach writes at
    most 0x01 to 0x35; detach writes 0x00 to 0x35; and the handler sends
    something to the input core exactly when the reason read is 0x04. *)
Theorem register_map_and_values_match_table :
  (EC_IRQ_REASON_REG = 0x05
   /\ EC_SUSPEND_RESUME_REG = 0x23
   /\ EC_IRQ_ENABLE_REG = 0x35)
  /\ (EC_NOTIFY_SUSPEND_ENTER = 0x01
      /\ EC_NOTIFY_SUSPEND_EXIT = 0x00
      /\ EC_NOTIFY_SCREEN_OFF = 0x03
      /\ EC_NOTIFY_SCREEN_ON = 0x04)
  /\ EC_IRQ_MICMUTE_BUTTON = 0x04
  /\ (forall irq ec k,
         map fst (bus_reads (emitted (yoga_slim7x_ec_irq irq ec) k)) = [0x05])
  /\ (forall dev k,
         bus_write_attempts (emitted (yoga_slim7x_ec_suspend dev) k)
           = [(0x23, 0x03)]
         \/ bus_write_attempts (emitted (yoga_slim7x_ec_suspend dev) k)
           = [(0x23, 0x03); (0x23, 0x01)])
  /\ (forall dev k,
         bus_write_attempts (emitted (yoga_slim7x_ec_resume dev) k)
           = [(0x23, 0x00)]
         \/ bus_write_attempts (emitted (yoga_slim7x_ec_resume dev) k)
           = [(0x23, 0x00); (0x23, 0x04)])
  /\ (forall client k,
         bus_write_attempts (emitted (yoga_slim7x_ec_probe client) k) = []
         \/ bus_write_attempts (emitted (yoga_slim7x_ec_probe client) k)
           = [(0x35, 0x01)])
  /\ (forall client k,
         bus_write_attempts (emitted (yoga_slim7x_ec_remove client) k)
           = [(0x35, 0x00)])
  /\ (forall irq ec k,
         input_events (emitted (yoga_slim7x_ec_irq irq ec) k) <> []
         <-> irq_reason ec k = 0x04).
Proof.
  split; [repeat split|]. split; [repeat split|]. split; [reflexivity|].
  split.
  { intros irq ec k. now rewrite irq_emitted, bus_reads_irq_events. }
  split; [exact suspend_write_attempts|].
  split; [exact resume_write_attempts|].
  split; [exact probe_write_attempts|].
  split; [exact remove_write_attempts|].
  intros irq ec k. rewrite irq_emitted. apply irq_input_events_iff_micmute.
Qed.

(** ** Locking: theorems *)

Lemma irq_accesses_locked (ec : yoga_slim7x_ec) (val : Z) :
  bus_accesses_locked (lock ec) false (irq_events ec val) = true.
Proof.
  unfold irq_events, irq_dispatch. cbn.
  rewrite Z.eqb_refl.
  destruct (val <? 0); [reflexivity|].
  destruct (val =? EC_IRQ_MICMUTE_BUTTON); reflexivity.
Qed.

Lemma irq_lock_ops (ec : yoga_slim7x_ec) (val : Z) :
  lock_ops (irq_events ec val) = [MutexLock (lock ec); MutexUnlock (lock ec)].
Proof.
  unfold irq_events, irq_dispatch.
  destruct (val <? 0); [reflexivity|].
  destruct (val =? EC_IRQ_MICMUTE_BUTTON); reflexivity.
Qed.

Lemma run_of_same (c : context) (evs : list event) :
  run_of c (map (pair c) evs) = evs.
Proof.
  unfold run_of.
  induction evs as [|e evs IH]; [reflexivity|].
  cbn. destruct c; cbn; now rewrite IH.
Qed.

Lemma run_of_other (c c' : context) (evs : list event) :
  context_eqb c' c = false ->
  run_of c (map (pair c') evs) = [].
Proof.
  unfold run_of. intros Hne.
  induction evs as [|e evs IH]; [reflexivity|].
  cbn. now rewrite Hne.
Qed.

Lemma run_of_app (c : context) (s1 s2 : schedule) :
  run_of c (s1 ++ s2) = run_of c s1 ++ run_of c s2.
Proof. unfold run_of. now rewrite filter_app, map_app. Qed.

(** Whatever the handler reads, its invocation fits between two SMBus
    writes of a power callback without the mutex being violated, and the
    bus then carries the handler's read between the two writes. *)
Lemma served_between_admissible (ec : yoga_slim7x_ec) (val : Z)
  (cl : i2c_client) (b1 b2 r1 r2 : Z) :
  let s := served_between ec val (notify cl b1 r1) (notify cl b2 r2) in
  run_of IrqThread s = irq_events ec val
  /\ run_of PmCallback s = [notify cl b1 r1; notify cl b2 r2]
  /\ mutex_respected (lock ec) None s = true
  /\ bus_traffic s = [PmCallback; IrqThread; PmCallback].
Proof.
  unfold served_between. cbn zeta.
  split; [|split; [|split]].
  - change (run_of IrqThread
              (map (pair IrqThread) (irq_events ec val)
               ++ [(PmCallback, notify cl b2 r2)]) = irq_events ec val).
    rewrite run_of_app, run_of_same. apply app_nil_r.
  - change (notify cl b1 r1
            :: run_of PmCallback
                 (map (pair IrqThread) (irq_events ec val)
                  ++ [(PmCallback, notify cl b2 r2)])
            = [notify cl b1 r1; notify cl b2 r2]).
    rewrite run_of_app, run_of_other by reflexivity. reflexivity.
  - unfold irq_events, irq_dispatch. cbn. rewrite Z.eqb_refl.
    destruct (val <? 0); cbn; [now rewrite Z.eqb_refl|].
    destruct (val =? EC_IRQ_MICMUTE_BUTTON); cbn; now rewrite Z.eqb_refl.
  - unfold irq_events, irq_dispatch. cbn.
    destruct (val <? 0); [reflexivity|].
    destruct (val =? EC_IRQ_MICMUTE_BUTTON); reflexivity.
Qed.

(** C2 as stated fails on the code.  Run with the lock free, suspend and
    resume make their writes with the lock not held.  Moreover the
    schedule [irq_inside_suspend] is a history the outside world
    [answering 0x04 0 0] can produce, its two projections are a run of the
    handler and a run of suspend (the answers of [answering] do not depend
    on the history, so each context makes the same calls however the two
    are scheduled), it respects the mutex, and it puts the handler's read
    between the two writes of the suspend. *)
Lemma suspend_resume_do_not_take_the_lock :
  bus_accesses_locked (lock ec_state) false
    (emitted (yoga_slim7x_ec_suspend (client_dev (client ec_state)))
             (answering 0x04 0 0)) = false
  /\ bus_accesses_locked (lock ec_state) false
       (emitted (yoga_slim7x_ec_resume (client_dev (client ec_state)))
                (answering 0x04 0 0)) = false
  /\ (run_of IrqThread irq_inside_suspend
        = emitted (yoga_slim7x_ec_irq 66 ec_state) (answering 0x04 0 0)
      /\ run_of PmCallback irq_inside_suspend
        = emitted (yoga_slim7x_ec_suspend (client_dev (client ec_state)))
                  (answering 0x04 0 0)
      /\ answers_agree (respond (answering 0x04 0 0)) []
                       (map snd irq_inside_suspend) = true
      /\ mutex_respected (lock ec_state) None irq_inside_suspend = true
      /\ bus_traffic irq_inside_suspend
        = [PmCallback; IrqThread; PmCallback]).
Proof. repeat split. Qed.

(** C2, as the code has it.  The handler makes its register read with the
    DeviceState lock held: its lock operations are one acquisition, which
    is its first action, and one release, which is its last.  Suspend and
    resume make no lock operation at all, so, called with the lock free,
    each of them makes its register writes with the lock not held.
    Accordingly the lock does not order a dispatch against a power
    transition: whatever the handler reads, when the outside world lets
    both writes of a suspend (or of a resume) succeed, there is a schedule
    of the two runs that respects the mutex and in which the handler's
    read goes over the bus between the two writes. *)
Theorem only_the_irq_handler_takes_the_lock
  (irq : Z) (ec : yoga_slim7x_ec) (dev : device) (k : kernel) :
  (bus_accesses_locked (lock ec) false
     (emitted (yoga_slim7x_ec_irq irq ec) k) = true
   /\ lock_ops (emitted (yoga_slim7x_ec_irq irq ec) k)
      = [MutexLock (lock ec); MutexUnlock (lock ec)]
   /\ hd_error (emitted (yoga_slim7x_ec_irq irq ec) k)
      = Some (MutexLock (lock ec))
   /\ last (emitted (yoga_slim7x_ec_irq irq ec) k) (MutexLock (lock ec))
      = MutexUnlock (lock ec))
  /\ (lock_ops (emitted (yoga_slim7x_ec_suspend dev) k) = []
      /\ bus_accesses_locked (lock ec) false
           (emitted (yoga_slim7x_ec_suspend dev) k) = false)
  /\ (lock_ops (emitted (yoga_slim7x_ec_resume dev) k) = []
      /\ bus_accesses_locked (lock ec) false
           (emitted (yoga_slim7x_ec_resume dev) k) = false)
  /\ (forall val other : Z,
         exists s : schedule,
           run_of IrqThread s
             = emitted (yoga_slim7x_ec_irq irq ec) (answering val 0 other)
           /\ run_of PmCallback s
             = emitted (yoga_slim7x_ec_suspend dev) (answering val 0 other)
           /\ mutex_respected (lock ec) None s = true
           /\ bus_traffic s = [PmCallback; IrqThread; PmCallback])
  /\ (forall val other : Z,
         exists s : schedule,
           run_of IrqThread s
             = emitted (yoga_slim7x_ec_irq irq ec) (answering val 0 other)
           /\ run_of PmCallback s
             = emitted (yoga_slim7x_ec_resume dev) (answering val 0 other)
           /\ mutex_respected (lock ec) None s = true
           /\ bus_traffic s = [PmCallback; IrqThread; PmCallback]).
Proof.
  split; [|split; [|split; [|split]]].
  - rewrite irq_emitted, irq_accesses_locked, irq_lock_ops.
    do 3 (split; [reflexivity|]).
    unfold irq_events, irq_dispatch.
    destruct (_ <? 0); [reflexivity|].
    destruct (_ =? EC_IRQ_MICMUTE_BUTTON); reflexivity.
  - destruct (Z.eq_dec
                (first_write (to_i2c_client dev) EC_NOTIFY_SCREEN_OFF k) 0)
      as [H0 | Hne].
    + rewrite (runs_emitted _ _ _ _ (suspend_runs_through dev k H0)).
      split; reflexivity.
    + rewrite (runs_emitted _ _ _ _ (suspend_runs_abort dev k Hne)).
      split; reflexivity.
  - destruct (Z.eq_dec
                (first_write (to_i2c_client dev) EC_NOTIFY_SUSPEND_EXIT k) 0)
      as [H0 | Hne].
    + rewrite (runs_emitted _ _ _ _ (resume_runs_through dev k H0)).
      split; reflexivity.
    + rewrite (runs_emitted _ _ _ _ (resume_runs_abort dev k Hne)).
      split; reflexivity.
  - intros val other.
    exists (served_between ec val
              (notify (to_i2c_client dev) EC_NOTIFY_SCREEN_OFF 0)
              (notify (to_i2c_client dev) EC_NOTIFY_SUSPEND_ENTER 0)).
    rewrite irq_emitted.
    rewrite (runs_emitted _ _ _ _
               (suspend_runs_through dev (answering val 0 other) eq_refl)).
    apply served_between_admissible.
  - intros val other.
    exists (served_between ec val
              (notify (to_i2c_client dev) EC_NOTIFY_SUSPEND_EXIT 0)
              (notify (to_i2c_client dev) EC_NOTIFY_SCREEN_ON 0)).
    rewrite irq_emitted.
    rewrite (runs_emitted _ _ _ _
               (resume_runs_through dev (answering val 0 other) eq_refl)).
    apply served_between_admissible.
Qed.

(** ** Running computations in sequence *)

Lemma extend_extend (k : kernel) (e1 e2 : list event) :
  extend (extend k e1) e2 = extend k (e1 ++ e2).
Proof. unfold extend. cbn. now rewrite app_assoc. Qed.

Lemma extend_nil (k : kernel) : extend k [] = k.
Proof. destruct k as [t f]. unfold extend. cbn. now rewrite app_nil_r. Qed.

Lemma runs_ret {A : Type} (a : A) (k : kernel) : runs (ret a) k a [].
Proof. unfold runs, ret. now rewrite extend_nil. Qed.

Lemma runs_bind {A B : Type} (m : kernelM A) (f : A -> kernelM B)
  (k : kernel) (a : A) (b : B) (e1 e2 : list event) :
  runs m k a e1 ->
  runs (f a) (extend k e1) b e2 ->
  runs (bind m f) k b (e1 ++ e2).
Proof.
  unfold runs, bind. intros Hm Hf.
  rewrite Hm, Hf, extend_extend. reflexivity.
Qed.

Lemma bus_reads_app (l1 l2 : list event) :
  bus_reads (l1 ++ l2) = bus_reads l1 ++ bus_reads l2.
Proof.
  induction l1 as [|e l1 IH]; [reflexivity|].
  destruct e as [[] r| | | | | | | | |]; cbn; now rewrite ?IH.
Qed.

Lemma bus_writes_app (l1 l2 : list event) :
  bus_writes (l1 ++ l2) = bus_writes l1 ++ bus_writes l2.
Proof.
  induction l1 as [|e l1 IH]; [reflexivity|].
  destruct e as [[] r| | | | | | | | |]; cbn; now rewrite ?IH.
Qed.

Lemma input_events_app (l1 l2 : list event) :
  input_events (l1 ++ l2) = input_events l1 ++ input_events l2.
Proof. apply filter_app. Qed.

Lemma diagnostics_app (l1 l2 : list event) :
  diagnostics (l1 ++ l2) = diagnostics l1 ++ diagnostics l2.
Proof. apply filter_app. Qed.

Lemma lock_ops_app (l1 l2 : list event) :
  lock_ops (l1 ++ l2) = lock_ops l1 ++ lock_ops l2.
Proof. apply filter_app. Qed.

(** ** The interrupt handler: every interrupt is accounted for *)

Lemma input_events_irq_events (ec : yoga_slim7x_ec) (val : Z) :
  input_events (irq_events ec val) = key_pair ec val.
Proof.
  unfold irq_events, irq_dispatch, key_pair.
  destruct (val <? 0) eqn:Hneg.
  - apply Z.ltb_lt in Hneg.
    destruct (val =? EC_IRQ_MICMUTE_BUTTON) eqn:Heq; [|reflexivity].
    apply Z.eqb_eq in Heq. subst val. discriminate Hneg.
  - destruct (val =? EC_IRQ_MICMUTE_BUTTON); reflexivity.
Qed.

Lemma diagnostics_irq_events (ec : yoga_slim7x_ec) (val : Z) :
  diagnostics (irq_events ec val) = log_line ec val.
Proof.
  unfold irq_events, irq_dispatch, log_line.
  destruct (val <? 0); [reflexivity|].
  destruct (val =? EC_IRQ_MICMUTE_BUTTON); reflexivity.
Qed.

(** X1. No interrupt goes unaccounted for, and none is accounted for
    twice: an invocation of the handler either sends the press/release
    pair to the input core and logs nothing, or sends nothing to the input
    core and writes exactly one line to the device log. *)
Theorem irq_acts_or_logs_never_both
  (irq : Z) (ec : yoga_slim7x_ec) (k : kernel) :
  (input_events (emitted (yoga_slim7x_ec_irq irq ec) k)
     = [InputReportKey (idev ec) KEY_MICMUTE 1; InputSync (idev ec);
        InputReportKey (idev ec) KEY_MICMUTE 0; InputSync (idev ec)]
   /\ diagnostics (emitted (yoga_slim7x_ec_irq irq ec) k) = [])
  \/ (input_events (emitted (yoga_slim7x_ec_irq irq ec) k) = []
      /\ List.length (diagnostics (emitted (yoga_slim7x_ec_irq irq ec) k))
         = 1%nat).
Proof.
  rewrite irq_emitted, input_events_irq_events, diagnostics_irq_events.
  unfold key_pair, log_line.
  destruct (irq_reason ec k <? 0) eqn:Hneg.
  - right. apply Z.ltb_lt in Hneg.
    destruct (irq_reason ec k =? EC_IRQ_MICMUTE_BUTTON) eqn:Heq.
    + apply Z.eqb_eq in Heq. rewrite Heq in Hneg. discriminate Hneg.
    + split; reflexivity.
  - destruct (irq_reason ec k =? EC_IRQ_MICMUTE_BUTTON).
    + left. split; reflexivity.
    + right. split; reflexivity.
Qed.

(** ** The interrupt handler: one interrupt after the other *)

Lemma mutex_respected_after_irq (c : context) (ec : yoga_slim7x_ec)
  (val : Z) (s : schedule) :
  mutex_respected (lock ec) None (map (pair c) (irq_events ec val) ++ s)
  = mutex_respected (lock ec) None s.
Proof.
  unfold irq_events, irq_dispatch. cbn. rewrite Z.eqb_refl.
  destruct (val <? 0); cbn.
  - rewrite Z.eqb_refl. now destruct c.
  - destruct (val =? EC_IRQ_MICMUTE_BUTTON); cbn;
      rewrite Z.eqb_refl; now destruct c.
Qed.

Lemma irq_repeat_runs (n : nat) (irq : Z) (ec : yoga_slim7x_ec) :
  forall k : kernel,
  exists evs : list event,
    runs (irq_repeat n irq ec) k tt evs
    /\ map fst (bus_reads evs) = repeat EC_IRQ_REASON_REG n
    /\ bus_writes evs = []
    /\ lock_ops evs
       = List.concat (repeat [MutexLock (lock ec); MutexUnlock (lock ec)] n)
    /\ input_events evs
       = flat_map (fun rd => key_pair ec (snd rd)) (bus_reads evs)
    /\ diagnostics evs
       = flat_map (fun rd => log_line ec (snd rd)) (bus_reads evs)
    /\ mutex_respected (lock ec) None (map (pair IrqThread) evs) = true.
Proof.
  induction n as [|n IH]; intros k.
  - exists []. split; [apply runs_ret|]. repeat split.
  - pose proof (irq_runs irq ec k) as Hone.
    destruct (IH (extend k (irq_events ec (irq_reason ec k))))
      as (evs & Hrest & Hrd & Hwr & Hlk & Hin & Hdg & Hmx).
    exists (irq_events ec (irq_reason ec k) ++ evs).
    split; [exact (runs_bind _ _ _ _ _ _ _ Hone Hrest)|].
    rewrite bus_reads_app, bus_writes_app, lock_ops_app, input_events_app,
      diagnostics_app, !map_app.
    rewrite bus_reads_irq_events, bus_writes_irq_events, irq_lock_ops,
      input_events_irq_events, diagnostics_irq_events,
      mutex_respected_after_irq.
    cbn [map fst app flat_map snd repeat List.concat].
    rewrite Hrd, Hwr, Hlk, Hin, Hdg, Hmx. repeat split.
Qed.

(** X2. However many interrupts are served one after the other and
    whatever the reason register returns each time, the handler reads the
    reason register once per interrupt and writes nothing to the bus;
    takes and releases the lock once per interrupt, never taking it while
    it is held; sends the input core one press/release pair for each read
    that returned the micmute code, in the order of the reads, and nothing
    else; and logs one line for each other read. *)
Theorem irq_repeat_one_key_pair_per_micmute_read
  (n : nat) (irq : Z) (ec : yoga_slim7x_ec) (k : kernel) :
  map fst (bus_reads (emitted (irq_repeat n irq ec) k))
    = repeat EC_IRQ_REASON_REG n
  /\ bus_writes (emitted (irq_repeat n irq ec) k) = []
  /\ lock_ops (emitted (irq_repeat n irq ec) k)
     = List.concat (repeat [MutexLock (lock ec); MutexUnlock (lock ec)] n)
  /\ mutex_respected (lock ec) None
       (map (pair IrqThread) (emitted (irq_repeat n irq ec) k)) = true
  /\ input_events (emitted (irq_repeat n irq ec) k)
     = flat_map (fun rd => key_pair ec (snd rd))
         (bus_reads (emitted (irq_repeat n irq ec) k))
  /\ diagnostics (emitted (irq_repeat n irq ec) k)
     = flat_map (fun rd => log_line ec (snd rd))
         (bus_reads (emitted (irq_repeat n irq ec) k)).
Proof.
  destruct (irq_repeat_runs n irq ec k)
    as (evs & Hrun & Hrd & Hwr & Hlk & Hin & Hdg & Hmx).
  rewrite (runs_emitted _ _ _ _ Hrun). repeat split; assumption.
Qed.

(** ** Attach: failures, result and footprint *)

(** Settle a membership in a history that has been computed. *)
Ltac find_event Hin :=
  cbn in Hin;
  repeat (destruct Hin as [Hin | Hin];
          [try discriminate Hin; inversion Hin; subst|]);
  try contradiction.

(** X3. If either allocation of attach fails -- the device state or the
    input device -- attach returns -ENOMEM without logging anything: after
    a failed state allocation it has done nothing else at all, and after a
    failed input-device allocation it has only initialised the mutex;
    nothing has been registered, no interrupt requested, nothing written
    to the bus. *)
Theorem probe_allocation_failure_returns_enomem_silently
  (client : i2c_client) (k : kernel) :
  In (Returned (DevmKzalloc (client_dev client)) 0)
     (emitted (yoga_slim7x_ec_probe client) k)
  \/ In (Returned (DevmInputAllocateDevice (client_dev client)) 0)
        (emitted (yoga_slim7x_ec_probe client) k) ->
  result (yoga_slim7x_ec_probe client) k = - ENOMEM
  /\ diagnostics (emitted (yoga_slim7x_ec_probe client) k) = []
  /\ bus_writes (emitted (yoga_slim7x_ec_probe client) k) = []
  /\ (emitted (yoga_slim7x_ec_probe client) k
        = [Returned (DevmKzalloc (client_dev client)) 0]
      \/ exists ec : Z,
           ec <> 0
           /\ emitted (yoga_slim7x_ec_probe client) k
              = [Returned (DevmKzalloc (client_dev client)) ec;
                 MutexInit ec;
                 Returned (DevmInputAllocateDevice (client_dev client)) 0]).
Proof.
  pose proof (probe_cases client k) as Hout.
  remember (result (yoga_slim7x_ec_probe client) k) as r eqn:Hr.
  remember (emitted (yoga_slim7x_ec_probe client) k) as evs eqn:Hevs.
  clear Hr Hevs.
  intros Hin.
  destruct Hout as
    [ | ec Hec | ec idev err Hec Hidev _ | ec idev r1 err Hec Hidev _ _
    | ec idev r1 r2 err Hec Hidev _ _ _ | ec idev r1 r2 r3 Hec Hidev _ _ _ ];
    unfold ev_kzalloc, ev_input_allocate, ev_input_register,
      ev_request_irq, ev_enable_irq in *.
  - repeat split. now left.
  - repeat split. right. now exists ec.
  - destruct Hin as [Hin | Hin]; find_event Hin.
  - destruct Hin as [Hin | Hin]; find_event Hin.
  - destruct Hin as [Hin | Hin]; find_event Hin.
  - destruct Hin as [Hin | Hin]; find_event Hin.
Qed.

Lemma probe_allocation_failure_returns_enomem_silently_witness :
  result (yoga_slim7x_ec_probe ec_client) no_input_device = - ENOMEM
  /\ diagnostics (emitted (yoga_slim7x_ec_probe ec_client) no_input_device)
     = []
  /\ bus_writes (emitted (yoga_slim7x_ec_probe ec_client) no_input_device)
     = []
  /\ (emitted (yoga_slim7x_ec_probe ec_client) no_input_device
        = [Returned (DevmKzalloc (client_dev ec_client)) 0]
      \/ exists ec : Z,
           ec <> 0
           /\ emitted (yoga_slim7x_ec_probe ec_client) no_input_device
              = [Returned (DevmKzalloc (client_dev ec_client)) ec;
                 MutexInit ec;
                 Returned (DevmInputAllocateDevice (client_dev ec_client)) 0]).
Proof.
  apply (probe_allocation_failure_returns_enomem_silently
           ec_client no_input_device).
  right. cbn. do 2 right. left. reflexivity.
Defined.

(** X4. Attach never returns a positive value, whatever the services it
    calls return, and it returns 0 exactly when it has written 1 to the
    IRQ-enable register and that write did not fail: success of attach and
    interrupts enabled at the controller are the same thing. *)
Theorem probe_succeeds_iff_interrupts_enabled
  (client : i2c_client) (k : kernel) :
  result (yoga_slim7x_ec_probe client) k <= 0
  /\ (result (yoga_slim7x_ec_probe client) k = 0
      <-> exists r : Z,
            0 <= r
            /\ bus_writes (emitted (yoga_slim7x_ec_probe client) k)
               = [(EC_IRQ_ENABLE_REG, 0x01, r)]).
Proof.
  pose proof (probe_cases client k) as Hout.
  remember (result (yoga_slim7x_ec_probe client) k) as r eqn:Hr.
  remember (emitted (yoga_slim7x_ec_probe client) k) as evs eqn:Hevs.
  clear Hr Hevs.
  destruct Hout as
    [ | ec Hec | ec idev err Hec Hidev He | ec idev r1 err Hec Hidev _ He
    | ec idev r1 r2 err Hec Hidev _ _ He | ec idev r1 r2 r3 Hec Hidev _ _ H3 ];
    cbn.
  - split; [discriminate|].
    split; [discriminate | intros (r & _ & H); discriminate H].
  - split; [discriminate|].
    split; [discriminate | intros (r & _ & H); discriminate H].
  - split; [lia|]. split; [lia | intros (r & _ & H); discriminate H].
  - split; [lia|]. split; [lia | intros (r & _ & H); discriminate H].
  - split; [lia|]. split; [lia|].
    intros (r & Hr & H). injection H as <-. lia.
  - split; [lia|]. split; [|reflexivity].
    intros _. now exists r3.
Qed.

(** X5. Attach logs at most one line.  It logs none when it succeeds or
    when an allocation fails; in every other failure it logs exactly one
    line, and the error code in that line is the value attach returns. *)
Theorem probe_logs_the_error_it_returns
  (client : i2c_client) (k : kernel) :
  (diagnostics (emitted (yoga_slim7x_ec_probe client) k) = []
   /\ (result (yoga_slim7x_ec_probe client) k = 0
       \/ (result (yoga_slim7x_ec_probe client) k = - ENOMEM
           /\ bus_writes (emitted (yoga_slim7x_ec_probe client) k) = []
           /\ forall idev name phys r,
                ~ In (Returned (InputRegisterDevice idev name phys) r)
                     (emitted (yoga_slim7x_ec_probe client) k))))
  \/ (result (yoga_slim7x_ec_probe client) k < 0
      /\ exists fmt : string,
           diagnostics (emitted (yoga_slim7x_ec_probe client) k)
           = [DevErrProbe (client_dev client)
                (result (yoga_slim7x_ec_probe client) k) fmt]).
Proof.
  pose proof (probe_cases client k) as Hout.
  remember (result (yoga_slim7x_ec_probe client) k) as r eqn:Hr.
  remember (emitted (yoga_slim7x_ec_probe client) k) as evs eqn:Hevs.
  clear Hr Hevs.
  destruct Hout as
    [ | ec Hec | ec idev err Hec Hidev He | ec idev r1 err Hec Hidev _ He
    | ec idev r1 r2 err Hec Hidev _ _ He | ec idev r1 r2 r3 Hec Hidev _ _ H3 ].
  - left. split; [reflexivity|]. right. repeat split.
    intros idev name phys r Hin. find_event Hin.
  - left. split; [reflexivity|]. right. repeat split.
    intros idev name phys r Hin. find_event Hin.
  - right. split; [assumption|]. eexists. reflexivity.
  - right. split; [assumption|]. eexists. reflexivity.
  - right. split; [assumption|]. eexists. reflexivity.
  - left. split; [reflexivity|]. now left.
Qed.

(** X6. Attach never reads from the bus, never sends anything to the
    input core before or after registering the device, and never takes
    the lock it initialises; it initialises that lock at most once. *)
Theorem probe_never_reads_reports_or_locks
  (client : i2c_client) (k : kernel) :
  bus_reads (emitted (yoga_slim7x_ec_probe client) k) = []
  /\ input_events (emitted (yoga_slim7x_ec_probe client) k) = []
  /\ lock_ops (emitted (yoga_slim7x_ec_probe client) k) = []
  /\ (List.length
        (filter (fun e => match e with MutexInit _ => true | _ => false end)
                (emitted (yoga_slim7x_ec_probe client) k)) <= 1)%nat.
Proof.
  destruct (probe_cases client k); cbn; repeat split; auto.
Qed.

(** ** Attach and the interrupt handler *)

(** What attach has done by the time it requests the interrupt. *)
Lemma probe_cookie_set_up (cl : i2c_client) (k : kernel)
  (dev : device) (irqn flags : Z) (name : string) (ec : yoga_slim7x_ec)
  (r : Z) :
  In (Returned (DevmRequestThreadedIrq dev irqn flags name ec) r)
     (emitted (yoga_slim7x_ec_probe cl) k) ->
  client ec = cl
  /\ In (MutexInit (lock ec)) (emitted (yoga_slim7x_ec_probe cl) k)
  /\ In (InputSetCapability (idev ec) EV_KEY KEY_MICMUTE)
        (emitted (yoga_slim7x_ec_probe cl) k).
Proof.
  pose proof (probe_cases cl k) as Hout.
  remember (emitted (yoga_slim7x_ec_probe cl) k) as evs eqn:Hevs.
  clear Hevs.
  intros Hin.
  destruct Hout; unfold ev_kzalloc, ev_input_allocate, ev_input_register,
    ev_request_irq, ev_enable_irq in *; find_event Hin;
    cbn; repeat split; auto 6.
Qed.

(** X7. The device state attach hands to the interrupt core is ready for
    the handler: whenever attach requests the interrupt, it does so for
    the client's interrupt line, one-shot, with a state that refers to the
    client being attached, whose mutex has been initialised before the
    request and whose input device has, before the request, been given
    the micmute key capability and then been registered successfully. *)
Theorem probe_hands_over_a_ready_state
  (cl : i2c_client) (k : kernel)
  (dev : device) (irqn flags : Z) (name : string) (ec : yoga_slim7x_ec)
  (r : Z) :
  In (Returned (DevmRequestThreadedIrq dev irqn flags name ec) r)
     (emitted (yoga_slim7x_ec_probe cl) k) ->
  (dev = client_dev cl /\ irqn = client_irq cl
   /\ flags = IRQF_ONESHOT /\ client ec = cl
   /\ lock ec <> 0 /\ idev ec <> 0)
  /\ precedes (MutexInit (lock ec))
       (Returned (DevmRequestThreadedIrq dev irqn flags name ec) r)
       (emitted (yoga_slim7x_ec_probe cl) k)
  /\ (exists r1 : Z,
        0 <= r1
        /\ precedes (InputSetCapability (idev ec) EV_KEY KEY_MICMUTE)
             (Returned (InputRegisterDevice (idev ec) "yoga-slim7x-ec"
                          "yoga-slim7x-ec/input0") r1)
             (emitted (yoga_slim7x_ec_probe cl) k)
        /\ precedes
             (Returned (InputRegisterDevice (idev ec) "yoga-slim7x-ec"
                          "yoga-slim7x-ec/input0") r1)
             (Returned (DevmRequestThreadedIrq dev irqn flags name ec) r)
             (emitted (yoga_slim7x_ec_probe cl) k)).
Proof.
  pose proof (probe_cases cl k) as Hout.
  remember (emitted (yoga_slim7x_ec_probe cl) k) as evs eqn:Hevs.
  clear Hevs.
  intros Hin.
  destruct Hout as
    [ | ec0 Hec | ec0 idev0 err Hec Hidev He
    | ec0 idev0 r1 err Hec Hidev H1 He
    | ec0 idev0 r1 r2 err Hec Hidev H1 H2 He
    | ec0 idev0 r1 r2 r3 Hec Hidev H1 H2 H3 ];
    unfold ev_kzalloc, ev_input_allocate, ev_input_register,
      ev_request_irq, ev_enable_irq in *; find_event Hin; cbn.
  - split; [repeat split; assumption|]. split.
    + unfold precedes; eexists [_], [_; _; _], [_]; reflexivity.
    + exists r1. split; [assumption|]. split.
      * unfold precedes; eexists [_; _; _], [], [_; _]; reflexivity.
      * unfold precedes; eexists [_; _; _; _], [], [_]; reflexivity.
  - split; [repeat split; assumption|]. split.
    + unfold precedes; eexists [_], [_; _; _], [_; _]; reflexivity.
    + exists r1. split; [assumption|]. split.
      * unfold precedes; eexists [_; _; _], [], [_; _; _]; reflexivity.
      * unfold precedes; eexists [_; _; _; _], [], [_; _]; reflexivity.
  - split; [repeat split; assumption|]. split.
    + unfold precedes; eexists [_], [_; _; _], [_]; reflexivity.
    + exists r1. split; [assumption|]. split.
      * unfold precedes; eexists [_; _; _], [], [_; _]; reflexivity.
      * unfold precedes; eexists [_; _; _; _], [], [_]; reflexivity.
Qed.

Lemma probe_hands_over_a_ready_state_witness :
  precedes (MutexInit 8192)
    (Returned (DevmRequestThreadedIrq ec_client 66 IRQF_ONESHOT
                 "yoga_slim7x_ec" ec_state) 0)
    (emitted (yoga_slim7x_ec_probe ec_client) accepting).
Proof.
  apply (probe_hands_over_a_ready_state ec_client accepting
           ec_client 66 IRQF_ONESHOT "yoga_slim7x_ec" ec_state 0).
  cbn. do 5 right. left. reflexivity.
Defined.

(** X8. The handler, run on the state attach registered with the
    interrupt, uses only what attach has set up: the mutex it takes is the
    one attach initialised, every key it reports is a key capability
    attach declared on the same input device, and its bus read goes to
    the client that was attached. *)
Theorem irq_uses_only_what_probe_set_up
  (cl : i2c_client) (k : kernel)
  (dev : device) (irqn flags : Z) (name : string) (ec : yoga_slim7x_ec)
  (r : Z) (irq : Z) (k' : kernel) :
  In (Returned (DevmRequestThreadedIrq dev irqn flags name ec) r)
     (emitted (yoga_slim7x_ec_probe cl) k) ->
  (forall l,
      In (MutexLock l) (emitted (yoga_slim7x_ec_irq irq ec) k') ->
      In (MutexInit l) (emitted (yoga_slim7x_ec_probe cl) k))
  /\ (forall i code v,
         In (InputReportKey i code v)
            (emitted (yoga_slim7x_ec_irq irq ec) k') ->
         In (InputSetCapability i EV_KEY code)
            (emitted (yoga_slim7x_ec_probe cl) k))
  /\ (forall c reg v,
         In (Returned (I2cSmbusReadByteData c reg) v)
            (emitted (yoga_slim7x_ec_irq irq ec) k') ->
         c = cl).
Proof.
  intros Hreq.
  destruct (probe_cookie_set_up _ _ _ _ _ _ _ _ Hreq) as (Hcl & Hmx & Hcap).
  rewrite irq_emitted. unfold irq_events, irq_dispatch.
  split; [|split].
  - intros l Hin.
    destruct (_ <? 0); [|destruct (_ =? EC_IRQ_MICMUTE_BUTTON)];
      find_event Hin; auto.
  - intros i code v Hin.
    destruct (_ <? 0); [|destruct (_ =? EC_IRQ_MICMUTE_BUTTON)];
      find_event Hin; auto.
  - intros c reg v Hin.
    destruct (_ <? 0); [|destruct (_ =? EC_IRQ_MICMUTE_BUTTON)];
      find_event Hin; auto.
Qed.

Lemma irq_uses_only_what_probe_set_up_witness :
  In (InputReportKey 4096 KEY_MICMUTE 1)
     (emitted (yoga_slim7x_ec_irq 66 ec_state) (answering 0x04 0 0))
  /\ In (InputSetCapability 4096 EV_KEY KEY_MICMUTE)
        (emitted (yoga_slim7x_ec_probe ec_client) accepting).
Proof.
  assert (In (InputReportKey 4096 KEY_MICMUTE 1)
             (emitted (yoga_slim7x_ec_irq 66 ec_state) (answering 0x04 0 0)))
    as Hreport.
  { cbn. do 2 right. left. reflexivity. }
  split; [exact Hreport|].
  refine (proj1 (proj2 (irq_uses_only_what_probe_set_up ec_client accepting
                          ec_client 66 IRQF_ONESHOT "yoga_slim7x_ec" ec_state
                          0 66 (answering 0x04 0 0) _))
                4096 KEY_MICMUTE 1 Hreport).
  cbn. do 5 right. left. reflexivity.
Defined.

(** ** The power sequencer: result, silence and round trip *)

Lemma suspend_runs (dev : device) (k : kernel) :
  exists (r : Z) (evs : list event),
    runs (yoga_slim7x_ec_suspend dev) k r evs
    /\ ((r <> 0
         /\ evs = [notify (to_i2c_client dev) EC_NOTIFY_SCREEN_OFF r])
        \/ evs = [notify (to_i2c_client dev) EC_NOTIFY_SCREEN_OFF 0;
                  notify (to_i2c_client dev) EC_NOTIFY_SUSPEND_ENTER r]).
Proof.
  destruct (Z.eq_dec (first_write (to_i2c_client dev) EC_NOTIFY_SCREEN_OFF k) 0)
    as [H0 | Hne].
  - do 2 eexists. split; [exact (suspend_runs_through dev k H0)|].
    right. reflexivity.
  - do 2 eexists. split; [exact (suspend_runs_abort dev k Hne)|].
    left. split; [assumption | reflexivity].
Qed.

Lemma resume_runs (dev : device) (k : kernel) :
  exists (r : Z) (evs : list event),
    runs (yoga_slim7x_ec_resume dev) k r evs
    /\ ((r <> 0
         /\ evs = [notify (to_i2c_client dev) EC_NOTIFY_SUSPEND_EXIT r])
        \/ evs = [notify (to_i2c_client dev) EC_NOTIFY_SUSPEND_EXIT 0;
                  notify (to_i2c_client dev) EC_NOTIFY_SCREEN_ON r]).
Proof.
  destruct (Z.eq_dec (first_write (to_i2c_client dev) EC_NOTIFY_SUSPEND_EXIT k) 0)
    as [H0 | Hne].
  - do 2 eexists. split; [exact (resume_runs_through dev k H0)|].
    right. reflexivity.
  - do 2 eexists. split; [exact (resume_runs_abort dev k Hne)|].
    left. split; [assumption | reflexivity].
Qed.

(** X9. Suspend and resume report a failure through their return value
    only: neither logs anything, reads the bus or touches the input core.
    Each returns the value returned by the last write it made, so it
    returns 0 exactly when it made both writes and both returned 0. *)
Theorem power_callbacks_return_last_write_and_log_nothing
  (dev : device) (k : kernel) :
  (diagnostics (emitted (yoga_slim7x_ec_suspend dev) k) = []
   /\ bus_reads (emitted (yoga_slim7x_ec_suspend dev) k) = []
   /\ input_events (emitted (yoga_slim7x_ec_suspend dev) k) = []
   /\ result (yoga_slim7x_ec_suspend dev) k
      = last (map snd (bus_writes (emitted (yoga_slim7x_ec_suspend dev) k)))
             0
   /\ (result (yoga_slim7x_ec_suspend dev) k = 0
       <-> map snd (bus_writes (emitted (yoga_slim7x_ec_suspend dev) k))
           = [0; 0]))
  /\ (diagnostics (emitted (yoga_slim7x_ec_resume dev) k) = []
      /\ bus_reads (emitted (yoga_slim7x_ec_resume dev) k) = []
      /\ input_events (emitted (yoga_slim7x_ec_resume dev) k) = []
      /\ result (yoga_slim7x_ec_resume dev) k
         = last (map snd (bus_writes (emitted (yoga_slim7x_ec_resume dev) k)))
                0
      /\ (result (yoga_slim7x_ec_resume dev) k = 0
          <-> map snd (bus_writes (emitted (yoga_slim7x_ec_resume dev) k))
              = [0; 0])).
Proof.
  split.
  - destruct (suspend_runs dev k) as (r & evs & Hrun & [[Hne ->] | ->]);
      rewrite (runs_emitted _ _ _ _ Hrun), (runs_result _ _ _ _ Hrun); cbn;
      do 4 (split; [reflexivity|]).
    + split; [contradiction | discriminate].
    + split; [now intros -> | now intros [= ->]].
  - destruct (resume_runs dev k) as (r & evs & Hrun & [[Hne ->] | ->]);
      rewrite (runs_emitted _ _ _ _ Hrun), (runs_result _ _ _ _ Hrun); cbn;
      do 4 (split; [reflexivity|]).
    + split; [contradiction | discriminate].
    + split; [now intros -> | now intros [= ->]].
Qed.

(** X10. A suspend that succeeds followed by a resume that succeeds puts
    exactly four writes on the bus, all to the suspend/resume register and
    in mirror order: ScreenOff, SuspendEnter, SuspendExit, ScreenOn.  The
    screen notification is the first thing sent on the way down and the
    last thing sent on the way up. *)
Theorem suspend_then_resume_round_trip (dev : device) (k : kernel) :
  result (suspend_then_resume dev) k = (0, 0) ->
  emitted (suspend_then_resume dev) k
  = [Returned (I2cSmbusWriteByteData (to_i2c_client dev)
                 EC_SUSPEND_RESUME_REG EC_NOTIFY_SCREEN_OFF) 0;
     Returned (I2cSmbusWriteByteData (to_i2c_client dev)
                 EC_SUSPEND_RESUME_REG EC_NOTIFY_SUSPEND_ENTER) 0;
     Returned (I2cSmbusWriteByteData (to_i2c_client dev)
                 EC_SUSPEND_RESUME_REG EC_NOTIFY_SUSPEND_EXIT) 0;
     Returned (I2cSmbusWriteByteData (to_i2c_client dev)
                 EC_SUSPEND_RESUME_REG EC_NOTIFY_SCREEN_ON) 0].
Proof.
  destruct (suspend_runs dev k) as (r1 & e1 & Hrun1 & Hshape1).
  destruct (resume_runs dev (extend k e1)) as (r2 & e2 & Hrun2 & Hshape2).
  assert (runs (suspend_then_resume dev) k (r1, r2) (e1 ++ e2 ++ []))
    as Hrun.
  { unfold suspend_then_resume.
    apply runs_bind with (a := r1); [assumption|].
    apply runs_bind with (a := r2); [assumption|].
    apply runs_ret. }
  rewrite (runs_emitted _ _ _ _ Hrun), (runs_result _ _ _ _ Hrun).
  intros [= -> ->].
  destruct Hshape1 as [[Hne _] | ->]; [now elim Hne|].
  destruct Hshape2 as [[Hne _] | ->]; [now elim Hne|].
  reflexivity.
Qed.

Lemma suspend_then_resume_round_trip_witness :
  bus_write_attempts (emitted (suspend_then_resume ec_client)
                              (answering 0 0 0))
  = [(0x23, 0x03); (0x23, 0x01); (0x23, 0x00); (0x23, 0x04)].
Proof.
  rewrite (suspend_then_resume_round_trip ec_client (answering 0 0 0)).
  - reflexivity.
  - reflexivity.
Defined.

(** ** Attach followed by detach *)

Lemma remove_runs_some (client : i2c_client) (k : kernel) :
  exists (r : Z) (evs : list event),
    runs (yoga_slim7x_ec_remove client) k tt evs
    /\ bus_writes evs = [(EC_IRQ_ENABLE_REG, 0x00, r)]
    /\ bus_reads evs = [].
Proof.
  exists (disable_result client k). eexists.
  split; [exact (remove_runs client k)|].
  destruct (disable_result client k <? 0); split; reflexivity.
Qed.

(** X11. When attach succeeds and detach follows, the bus carries exactly
    two transfers: the write of 1 to the IRQ-enable register made by
    attach and, after it, the write of 0 made by detach.  Detach undoes
    on the controller the one thing attach did there, and the result of
    the disabling write does not change what the pair returns. *)
Theorem probe_then_remove_enables_then_disables
  (client : i2c_client) (k : kernel) :
  result (probe_then_remove client) k = 0 ->
  bus_write_attempts (emitted (probe_then_remove client) k)
    = [(EC_IRQ_ENABLE_REG, 0x01); (EC_IRQ_ENABLE_REG, 0x00)]
  /\ bus_reads (emitted (probe_then_remove client) k) = [].
Proof.
  destruct (probe_runs client k) as (r1 & e1 & Hrun1 & Hout).
  destruct (remove_runs_some client (extend k e1))
    as (r2 & e2 & Hrun2 & Hwr & Hrd).
  assert (runs (probe_then_remove client) k r1 (e1 ++ e2 ++ [])) as Hrun.
  { unfold probe_then_remove.
    apply runs_bind with (a := r1); [assumption|].
    apply runs_bind with (a := tt); [assumption|].
    apply runs_ret. }
  rewrite (runs_emitted _ _ _ _ Hrun), (runs_result _ _ _ _ Hrun).
  intros ->.
  unfold bus_write_attempts.
  rewrite app_nil_r, bus_writes_app, bus_reads_app, Hwr, Hrd.
  inversion Hout; subst; try lia.
  split; reflexivity.
Qed.

Lemma probe_then_remove_enables_then_disables_witness :
  bus_write_attempts (emitted (probe_then_remove ec_client) accepting)
    = [(0x35, 0x01); (0x35, 0x00)]
  /\ bus_reads (emitted (probe_then_remove ec_client) accepting) = [].
Proof.
  apply (probe_then_remove_enables_then_disables ec_client accepting).
  reflexivity.
Defined.
